(** * Buildwise: the failure-analysis pipeline

    A shallow embedding of the Jenkins failure-analysis code
    (backend/models/rag_pipeline.py, backend/models/mongodb_analyzer.py,
    backend/core/jenkins_fetch_and_vectorize.py,
    backend/services/vector_indexer.py and the batch route of
    backend/api/routes.py), followed by the properties of the
    specification that are settled on it.

    Text is a Stdlib [string].  The character classes ([\s], [\d], [\w]),
    [str.lower] and case-insensitive matching are the ASCII ones; a
    character above 127 belongs to no class and has no case.  The file
    system, the language model, the retrieval chain, [git] and the
    embedding back end are the environment: they appear as explicit
    arguments, and file-system effects are threaded as state. *)

From Stdlib Require Import Ascii.
From stdpp Require Import gmap strings list.

(** ** Python [str] methods used by the code *)

Module Py.

(** The one-character string ["\n"]. *)
Definition nl : string := String "010"%char "".

Definition code (c : ascii) : nat := nat_of_ascii c.

(** [str.isspace] on one character, also the class [\s]. *)
Definition is_space (c : ascii) : bool :=
  let n := code c in
  ((9 <=? n)%nat && (n <=? 13)%nat) || ((28 <=? n)%nat && (n <=? 32)%nat).

(** The class [\d]. *)
Definition is_digit (c : ascii) : bool :=
  let n := code c in (48 <=? n)%nat && (n <=? 57)%nat.

Definition is_upper (c : ascii) : bool :=
  let n := code c in (65 <=? n)%nat && (n <=? 90)%nat.

Definition is_lower (c : ascii) : bool :=
  let n := code c in (97 <=? n)%nat && (n <=? 122)%nat.

(** The class [\w]: letters, digits and the underscore. *)
Definition is_word (c : ascii) : bool :=
  is_upper c || is_lower c || is_digit c || Ascii.eqb c "_"%char.

Definition lower_char (c : ascii) : ascii :=
  if is_upper c then ascii_of_nat (code c + 32) else c.

(** [s.lower()] *)
Fixpoint lower (s : string) : string :=
  match s with
  | "" => ""
  | String c s' => String (lower_char c) (lower s')
  end.

(** [s.startswith(p)] *)
Fixpoint startswith (p s : string) : bool :=
  match p, s with
  | "", _ => true
  | String a p', String b s' => Ascii.eqb a b && startswith p' s'
  | String _ _, "" => false
  end.

(** [sub in s] *)
Fixpoint contains (sub s : string) : bool :=
  startswith sub s ||
  match s with
  | "" => false
  | String _ s' => contains sub s'
  end.

(** [s[n:]] and [s[:n]] for [n >= 0]. *)
Fixpoint drop (n : nat) (s : string) : string :=
  match n, s with
  | S n', String _ s' => drop n' s'
  | _, _ => s
  end.

Fixpoint take (n : nat) (s : string) : string :=
  match n, s with
  | S n', String c s' => String c (take n' s')
  | _, _ => ""
  end.

(** [s.endswith(p)] *)
Definition endswith (p s : string) : bool :=
  (String.length p <=? String.length s)%nat &&
  String.eqb (drop (String.length s - String.length p) s) p.

(** [s.split(sep)] for a one-character separator: never an empty list. *)
Fixpoint split (sep : ascii) (s : string) : list string :=
  match s with
  | "" => [""]
  | String c s' =>
      if Ascii.eqb c sep then "" :: split sep s'
      else match split sep s' with
           | w :: ws => String c w :: ws
           | [] => [String c ""]
           end
  end.

(** [sep.join(parts)] *)
Fixpoint join (sep : string) (parts : list string) : string :=
  match parts with
  | [] => ""
  | [p] => p
  | p :: ps => p +:+ sep +:+ join sep ps
  end.

(** [s.lstrip()], [s.rstrip()] and [s.strip()] without argument. *)
Fixpoint lstrip (s : string) : string :=
  match s with
  | String c s' => if is_space c then lstrip s' else s
  | "" => ""
  end.

Fixpoint rstrip (s : string) : string :=
  match s with
  | "" => ""
  | String c s' =>
      match rstrip s' with
      | "" => if is_space c then "" else String c ""
      | r => String c r
      end
  end.

Definition strip (s : string) : string := rstrip (lstrip s).

(** [s.rstrip(chars)]: drops every trailing character that occurs in
    [chars]. *)
Fixpoint in_chars (chars : string) (c : ascii) : bool :=
  match chars with
  | "" => false
  | String a chars' => Ascii.eqb c a || in_chars chars' c
  end.

Fixpoint rstrip_chars (chars s : string) : string :=
  match s with
  | "" => ""
  | String c s' =>
      match rstrip_chars chars s' with
      | "" => if in_chars chars c then "" else String c ""
      | r => String c r
      end
  end.

(** [s.replace(old, "")] for a non-empty [old]: the occurrences are
    removed from left to right, without overlap. *)
Fixpoint remove_from (old : string) (skip : nat) (s : string) : string :=
  match s with
  | "" => ""
  | String c s' =>
      match skip with
      | S k => remove_from old k s'
      | O =>
          if startswith old s then remove_from old (String.length old - 1) s'
          else String c (remove_from old O s')
      end
  end.

Definition remove_all (old s : string) : string := remove_from old O s.

(** The last element of [s.split("/")], which is also
    [os.path.basename(s)] on a POSIX path. *)
Definition last_segment (s : string) : string :=
  List.last (split "/"%char s) "".

Definition basename (path : string) : string := last_segment path.

(** The lines of a text, each closed by a newline. *)
Fixpoint unlines (ls : list string) : string :=
  match ls with
  | [] => ""
  | l :: ls' => l +:+ nl +:+ unlines ls'
  end.

(** Truth value of a string: [if s]. *)
Definition truthy (s : string) : bool :=
  match s with "" => false | _ => true end.

End Py.

(** ** Regular expressions

    The fragment of Python's [re] that the code uses: a pattern is a
    sequence of one-character classes, each taken once, [*], [+] or
    [{n}] times, with at most one capture group.  Matching is the
    backtracking one: a quantifier takes as many characters as it can and
    gives them back one at a time. *)

Module Re.

Inductive quant := One | Star | Plus | Times (n : nat).

Inductive item :=
| Atom (cls : ascii → bool) (q : quant)
| Open
| Close.

Definition pattern := list item.

(** A position in the subject is the suffix that starts there. *)
Record found := Found {
  rest : string;
  g_open : option string;
  g_close : option string
}.

Definition set_open (s : string) (f : found) : found :=
  Found (rest f) (Some s) (g_close f).

Definition set_close (s : string) (f : found) : found :=
  Found (rest f) (g_open f) (Some s).

Fixpoint times (n : nat) (cls : ascii → bool)
    (k : string → option found) (s : string) : option found :=
  match n with
  | O => k s
  | S n' =>
      match s with
      | String c s' => if cls c then times n' cls k s' else None
      | "" => None
      end
  end.

Fixpoint star (cls : ascii → bool)
    (k : string → option found) (s : string) : option found :=
  match s with
  | String c s' =>
      if cls c then
        match star cls k s' with
        | Some f => Some f
        | None => k s
        end
      else k s
  | "" => k s
  end.

(** [pattern.match(s)]: the match that starts at the head of [s]. *)
Fixpoint match_here (p : pattern) (s : string) : option found :=
  match p with
  | [] => Some (Found s None None)
  | Atom cls One :: p' => times 1 cls (match_here p') s
  | Atom cls Star :: p' => star cls (match_here p') s
  | Atom cls Plus :: p' => times 1 cls (star cls (match_here p')) s
  | Atom cls (Times n) :: p' => times n cls (match_here p') s
  | Open :: p' => set_open s <$> match_here p' s
  | Close :: p' => set_close s <$> match_here p' s
  end.

(** The text from position [a] up to the later position [b]. *)
Definition between (a b : string) : string :=
  Py.take (String.length a - String.length b) a.

(** What [findall] reports for a match that starts at [start]: the group
    when the pattern has one, the whole match otherwise. *)
Definition result_text (start : string) (f : found) : string :=
  match g_open f, g_close f with
  | Some a, Some b => between a b
  | _, _ => between start (rest f)
  end.

(** [re.search(p, s)]: the leftmost match, as (start, match). *)
Fixpoint search (p : pattern) (s : string) : option (string * found) :=
  match match_here p s with
  | Some f => Some (s, f)
  | None =>
      match s with
      | String _ s' => search p s'
      | "" => None
      end
  end.

(** [re.search(p, s).group(1)], [None] when there is no match. *)
Definition search_group1 (p : pattern) (s : string) : option string :=
  match search p s with
  | Some (_, f) =>
      match g_open f, g_close f with
      | Some a, Some b => Some (between a b)
      | _, _ => None
      end
  | None => None
  end.

(** [re.findall(p, s)]: the matches from left to right, without
    overlap; [skip] counts the characters of the last match still to be
    passed over. *)
Fixpoint findall_from (p : pattern) (skip : nat) (s : string) : list string :=
  match skip with
  | S k =>
      match s with
      | String _ s' => findall_from p k s'
      | "" => []
      end
  | O =>
      match match_here p s with
      | Some f =>
          result_text s f ::
          match s with
          | String _ s' =>
              findall_from p (String.length s - String.length (rest f) - 1) s'
          | "" => []
          end
      | None =>
          match s with
          | String _ s' => findall_from p O s'
          | "" => []
          end
      end
  end.

Definition findall (p : pattern) (s : string) : list string :=
  findall_from p O s.

(** *** Classes and pattern builders *)

(** [.] without [re.DOTALL]: anything but a newline. *)
Definition dot (c : ascii) : bool := negb (Ascii.eqb c "010"%char).

Definition exactly (a : ascii) (c : ascii) : bool := Ascii.eqb c a.

(** A literal character under [re.IGNORECASE]. *)
Definition ignoring_case (a : ascii) (c : ascii) : bool :=
  Ascii.eqb (Py.lower_char c) (Py.lower_char a).

Definition not_space (c : ascii) : bool := negb (Py.is_space c).

Fixpoint lit (s : string) : pattern :=
  match s with
  | "" => []
  | String a s' => Atom (exactly a) One :: lit s'
  end.

Fixpoint lit_i (s : string) : pattern :=
  match s with
  | "" => []
  | String a s' => Atom (ignoring_case a) One :: lit_i s'
  end.

Definition group (p : pattern) : pattern := Open :: p ++ [Close].

(** [.*] and [.+] *)
Definition any_star : pattern := [Atom dot Star].
Definition any_plus : pattern := [Atom dot Plus].

End Re.

(** ** mongodb_analyzer.py *)

Module MongoDBAnalyzer.

(** [self.mongodb_error_patterns]; every use passes [re.IGNORECASE]. *)
Definition mongodb_error_patterns : list Re.pattern :=
  [ Re.lit_i "MongoServerSelectionError" ++ Re.any_star;
    Re.lit_i "MongoNetworkError" ++ Re.any_star;
    Re.lit_i "getaddrinfo ENOTFOUND" ++ Re.any_star;
    Re.lit_i "Connection refused" ++ Re.any_star;
    Re.lit_i "No primary available" ++ Re.any_star;
    Re.lit_i "Server selection timeout" ++ Re.any_star;
    Re.lit_i "Authentication failed" ++ Re.any_star;
    Re.lit_i "Network is unreachable" ++ Re.any_star ].

Definition header : list string :=
  [ "## 🍃 MongoDB Connection Issue Analysis"; "" ].

Definition dns_resolution_failure : list string :=
  [ "**Root Cause**: DNS Resolution Failure";
    "- The application cannot resolve the MongoDB service hostname";
    "- This is typically a Kubernetes service discovery issue";
    "";
    "**Detailed Analysis**:";
    "1. **Service Discovery Issue**: The MongoDB service is not reachable via DNS";
    "2. **Network Policy**: There might be network policies blocking access";
    "3. **Service Configuration**: The MongoDB service might not be properly configured";
    "4. **Namespace Issues**: The service might be in a different namespace";
    "";
    "**Immediate Fix Steps**:";
    "```bash";
    "# 1. Check if MongoDB service exists";
    "kubectl get svc -n mongodb mongodb-central-stg-headless";
    "";
    "# 2. Check service endpoints";
    "kubectl get endpoints -n mongodb mongodb-central-stg-headless";
    "";
    "# 3. Test DNS resolution from a pod";
    "kubectl run test-dns --image=busybox --rm -it --restart=Never -- nslookup mongodb-central-stg-headless.mongodb.svc.cluster.local";
    "";
    "# 4. Check if MongoDB pods are running";
    "kubectl get pods -n mongodb -l app=mongodb";
    "";
    "# 5. Check network policies";
    "kubectl get networkpolicies -n mongodb";
    "```";
    "" ].

Definition authentication_failure : list string :=
  [ "**Root Cause**: MongoDB Authentication Failure";
    "- The application cannot authenticate with MongoDB";
    "- This is typically a credentials or connection string issue";
    "";
    "**Fix Steps**:";
    "1. **Check Connection String**: Verify MongoDB connection string format";
    "2. **Verify Credentials**: Check username/password in environment variables";
    "3. **Check MongoDB Users**: Verify the user exists in MongoDB";
    "4. **Check Authentication Database**: Ensure correct auth database";
    "" ].

Definition connection_timeout : list string :=
  [ "**Root Cause**: MongoDB Connection Timeout";
    "- The application cannot establish connection to MongoDB within timeout";
    "- This could be due to network issues or MongoDB being overloaded";
    "";
    "**Fix Steps**:";
    "1. **Check MongoDB Health**: Verify MongoDB pods are healthy";
    "2. **Increase Timeout**: Adjust connection timeout settings";
    "3. **Check Network**: Verify network connectivity between pods";
    "4. **Check Resource Usage**: Ensure MongoDB has sufficient resources";
    "" ].

Definition network_unreachable : list string :=
  [ "**Root Cause**: Network Connectivity Issue";
    "- The application cannot reach the MongoDB network";
    "- This is typically a Kubernetes networking issue";
    "";
    "**Fix Steps**:";
    "1. **Check Pod Network**: Verify pod can reach other services";
    "2. **Check Service Mesh**: If using Istio/Linkerd, check policies";
    "3. **Check Network Policies**: Verify no blocking policies";
    "4. **Check DNS**: Verify DNS resolution works";
    "" ].

Definition general_connection_issue : list string :=
  [ "**Root Cause**: General MongoDB Connection Issue";
    "- The application cannot connect to MongoDB";
    "- This could be due to various network or configuration issues";
    "" ].

Definition common_steps : list string :=
  [ "**Common Troubleshooting Steps**:";
    "```bash";
    "# 1. Check MongoDB service status";
    "kubectl get svc -n mongodb";
    "";
    "# 2. Check MongoDB pods";
    "kubectl get pods -n mongodb";
    "";
    "# 3. Check MongoDB logs";
    "kubectl logs -n mongodb <mongodb-pod-name>";
    "";
    "# 4. Test connectivity from application pod";
    "kubectl exec -it <app-pod-name> -- nc -zv mongodb-central-stg-headless.mongodb.svc.cluster.local 27017";
    "";
    "# 5. Check if MongoDB is accessible";
    "kubectl exec -it <app-pod-name> -- telnet mongodb-central-stg-headless.mongodb.svc.cluster.local 27017";
    "```";
    "";
    "**Prevention Measures**:";
    "1. **Health Checks**: Implement proper health checks for MongoDB";
    "2. **Connection Pooling**: Use connection pooling to handle connection issues";
    "3. **Retry Logic**: Implement retry logic with exponential backoff";
    "4. **Monitoring**: Set up monitoring for MongoDB connectivity";
    "5. **Documentation**: Document MongoDB connection requirements";
    "";
    "**Priority**: High";
    "**Estimated Time**: 30-60 minutes";
    "**Impact**: Critical - Application cannot function without database";
    "";
    "**Next Steps**:";
    "1. Immediately check MongoDB service status";
    "2. Verify network connectivity between application and MongoDB";
    "3. Check MongoDB pod logs for any errors";
    "4. Test connectivity from application pod";
    "5. Update connection string if needed" ].


(** [any(needle in error for error in errors)] *)
Definition any_contains (needle : string) (errors : list string) : bool :=
  existsb (Py.contains needle) errors.

Definition _analyze_specific_error (errors : list string) (log_content : string)
    : string :=
  Py.unlines
    (header ++
     (if any_contains "getaddrinfo ENOTFOUND" errors then dns_resolution_failure
      else if any_contains "Authentication failed" errors then authentication_failure
      else if any_contains "Server selection timeout" errors then connection_timeout
      else if any_contains "Network is unreachable" errors then network_unreachable
      else general_connection_issue) ++
     common_steps).

(** The returned dict: [{"is_mongodb_issue": False}], or the three keys
    of a positive report. *)
Inductive report :=
| NotMongo
| MongoIssue (errors_found : list string) (analysis : string).

Definition is_mongodb_issue (r : report) : bool :=
  match r with NotMongo => false | MongoIssue _ _ => true end.

Definition find_errors (log_content : string) : list string :=
  flat_map (λ pattern, Re.findall pattern log_content) mongodb_error_patterns.

Definition analyze_mongodb_issue (log_content : string) : report :=
  let mongodb_errors := find_errors log_content in
  match mongodb_errors with
  | [] => NotMongo
  | _ => MongoIssue mongodb_errors (_analyze_specific_error mongodb_errors log_content)
  end.

End MongoDBAnalyzer.

(** ** The environment: exceptions, files, services *)

Inductive exn :=
| FileNotFoundError
| IsADirectoryError
| PermissionError
| CalledProcessError
| TimeoutExpiredError.

(** A call either returns or raises. *)
Inductive outcome (A : Type) :=
| Return (a : A)
| Raise (e : exn).
Global Arguments Return {A} a.
Global Arguments Raise {A} e.

Global Instance outcome_ret : MRet outcome := λ A a, Return a.
Global Instance outcome_bind : MBind outcome := λ A B f m,
  match m with
  | Return a => f a
  | Raise e => Raise e
  end.

Definition returned {A} (m : outcome A) : bool :=
  match m with Return _ => true | Raise _ => false end.

(** [try: body except Exception: handler] *)
Definition try_except {A} (body : outcome A) (handler : exn → A) : A :=
  match body with
  | Return a => a
  | Raise e => handler e
  end.

Module FS.

(** What a path names.  [Unreadable] is a file that exists but whose
    [open] or [read] raises (no permission, bytes that do not decode). *)
Inductive node :=
| TextFile (content : string)
| Directory
| Unreadable.

(** [os.path.exists(path)] *)
Definition exists_ (fs : gmap string node) (path : string) : bool :=
  bool_decide (is_Some (fs !! path)).

(** [with open(path, 'r') as f: f.read()] *)
Definition read (fs : gmap string node) (path : string) : outcome string :=
  match fs !! path with
  | Some (TextFile content) => Return content
  | Some Directory => Raise IsADirectoryError
  | Some Unreadable => Raise PermissionError
  | None => Raise FileNotFoundError
  end.

End FS.

(** The prompt sent to the language model, as the values that the f-string
    of [analyze_failure] interpolates. *)
Record prompt := Prompt {
  p_build_file : string;
  p_build_number : string;
  p_build_time : string;
  p_failure_repos : list string;
  p_success_repos : list string;
  p_failure_log : string;
  p_success_log : string;
  p_repository_context : string
}.

(** The services a [JenkinsAnalyzer] talks to.
    - [llm] is [self.llm]: [None] when no model is configured, otherwise
      [invoke], which gives the content of the response or raises ([None]).
    - [rag_run path query] is [get_rag_chain(path).run(query)]: [None] when
      the chain cannot be built or the query raises.
    - [strptime] and [strftime] are those of [datetime], [None] when they
      raise. *)
Record services := Services {
  llm : option (prompt → option string);
  rag_run : string → string → option string;
  datetime : Type;
  strptime : string → string → option datetime;
  strftime : datetime → string → option string
}.

(** ** rag_pipeline.py *)

Module JenkinsAnalyzer.

(** The values of ["analysis_type"]. *)
Inductive analysis_kind :=
| mongodb_specialized
| azure_openai_with_context
| local.

(** The dict built by [_extract_build_info]: a key is present or not. *)
Record build_info := BuildInfo {
  build_number : option string;
  build_time : option string;
  started_by : option string;
  status : option string
}.

(** The dict returned by [analyze_failure]; a field is [None] when the
    key is not set on that path. *)
Record diagnosis := Diagnosis {
  analysis : string;
  failure_repos : list string;
  success_repos : list string;
  failure_log_path : option string;
  success_log_path : option (option string);
  analysis_type : analysis_kind;
  build_information : option build_info;
  repository_context_used : option bool
}.

(** [list(set(repos))]: the distinct elements, in the order of the set. *)
Definition list_of_set (repos : list string) : list string :=
  elements (list_to_set repos : gset string).

(** [[repo.strip() for repo in repos if repo.strip()]] *)
Definition stripped_nonempty (repos : list string) : list string :=
  omap (λ repo, let r := Py.strip repo in
                if Py.truthy r then Some r else None) repos.

Definition github_pattern : Re.pattern :=
  Re.lit "https://github.com/" ++ [Re.Atom Re.not_space Re.Plus] ++ Re.lit ".git".

Definition repo_pattern : Re.pattern :=
  Re.lit "https://" ++ [Re.Atom Re.not_space Re.Plus] ++ Re.lit ".git".

Definition cloning_pattern : Re.pattern :=
  Re.lit "Cloning repository " ++
  Re.group (Re.lit "https://" ++ [Re.Atom Re.not_space Re.Plus]).

(** The candidates collected from the content, before deduplication. *)
Definition repo_candidates (content : string) : list string :=
  let first_line := hd "" (Py.split "010" content) in
  (if Py.contains "github.com" first_line || Py.contains "http" first_line
   then stripped_nonempty (Py.split "," first_line) else []) ++
  Re.findall github_pattern content ++
  Re.findall repo_pattern content ++
  Re.findall cloning_pattern content.

(** The body of the [try] block; nothing after the read can raise. *)
Definition _extract_repos_body (fs : gmap string FS.node) (log_path : string)
    : outcome (list string) :=
  content ← FS.read fs log_path;
  mret (stripped_nonempty (list_of_set (repo_candidates content))).

Definition _extract_repos_from_log (fs : gmap string FS.node) (log_path : string)
    : list string :=
  try_except (_extract_repos_body fs log_path) (λ _, []).

Definition build_pattern : Re.pattern :=
  Re.lit "build_" ++ Re.group [Re.Atom Py.is_digit Re.Plus].

Definition time_pattern : Re.pattern :=
  Re.group ([Re.Atom Py.is_digit (Re.Times 8)] ++ Re.lit "_" ++
            [Re.Atom Py.is_digit (Re.Times 6)]).

Definition user_pattern : Re.pattern :=
  Re.lit "Started by user " ++ Re.group Re.any_plus.

Definition status_pattern : Re.pattern :=
  Re.lit "Finished: " ++ Re.group [Re.Atom Py.is_word Re.Plus].

(** The [try] block around the timestamp: any failure gives ['Unknown']. *)
Definition format_build_time (sv : services) (timestamp : string) : string :=
  match strptime sv timestamp "%Y%m%d_%H%M%S" with
  | Some dt =>
      match strftime sv dt "%Y-%m-%d %H:%M:%S" with
      | Some text => text
      | None => "Unknown"
      end
  | None => "Unknown"
  end.

Definition _extract_build_info (sv : services) (log_path log_content : string)
    : build_info :=
  let filename := Py.basename log_path in
  {| build_number := Re.search_group1 build_pattern filename;
     build_time := format_build_time sv <$> Re.search_group1 time_pattern filename;
     started_by := Re.search_group1 user_pattern log_content;
     status := Re.search_group1 status_pattern log_content |}.

(** [d.get(key, 'Unknown')] *)
Definition get_or_unknown (field : option string) : string :=
  default "Unknown" field.

(** [repo_url.rstrip('.git').split('/')[-1]] *)
Definition repo_name (repo_url : string) : string :=
  Py.last_segment (Py.rstrip_chars ".git" repo_url).

Definition repository_section (sv : services) (fs : gmap string FS.node)
    (failure_content repo_url : string) : option string :=
  let name := repo_name repo_url in
  let vectorstore_path := "vectorstore/" +:+ name +:+ "_vectorstore" in
  if FS.exists_ fs vectorstore_path then
    let query := "Find relevant code and configuration related to: " +:+
                 Py.take 500 failure_content in
    match rag_run sv vectorstore_path query with
    | Some result =>
        if (50 <? String.length result)%nat
        then Some ("=== " +:+ name +:+ " Repository Context ===" +:+ Py.nl +:+
                   result +:+ Py.nl)
        else None
    | None => None
    end
  else None.

Definition _get_repository_context (sv : services) (fs : gmap string FS.node)
    (repos : list string) (failure_content : string) : string :=
  match omap (repository_section sv fs failure_content) repos with
  | [] => "No repository context available - vector stores may not be created or accessible."
  | context_parts => Py.join Py.nl context_parts
  end.

(** [error_patterns] of [_local_analysis], searched with
    [re.IGNORECASE]. *)
Definition error_patterns : list Re.pattern :=
  [ Re.lit_i "ERROR" ++ Re.any_star;
    Re.lit_i "Exception" ++ Re.any_star;
    Re.lit_i "Failed" ++ Re.any_star;
    Re.lit_i "Error" ++ Re.any_star;
    Re.lit_i "AuthenticationError" ++ Re.any_star;
    Re.lit_i "401" ++ Re.any_star;
    Re.lit_i "403" ++ Re.any_star;
    Re.lit_i "500" ++ Re.any_star;
    Re.lit_i "Build" ++ Re.any_star ++ Re.lit_i "failed" ++ Re.any_star;
    Re.lit_i "Step" ++ Re.any_star ++ Re.lit_i "failed" ++ Re.any_star;
    Re.lit_i "MongoDB" ++ Re.any_star;
    Re.lit_i "MongoServerSelectionError" ++ Re.any_star;
    Re.lit_i "MongoNetworkError" ++ Re.any_star;
    Re.lit_i "getaddrinfo ENOTFOUND" ++ Re.any_star;
    Re.lit_i "Docker" ++ Re.any_star ++ Re.lit_i "Error" ++ Re.any_star;
    Re.lit_i "ECR" ++ Re.any_star ++ Re.lit_i "Error" ++ Re.any_star ].

Definition header : list string :=
  [ "## 🔍 Local Analysis Results"; "" ].

Definition mongodb_connection_issue : list string :=
  [ "**Root Cause**: MongoDB Connection Issue";
    "- The build failed due to MongoDB connection problems";
    "- Error: `getaddrinfo ENOTFOUND mongodb-central-stg-headless.mongodb.svc.cluster.local`";
    "- This indicates DNS resolution failure for MongoDB service";
    "";
    "**Fix Instructions**:";
    "1. Check if MongoDB service is running in the cluster";
    "2. Verify DNS resolution for MongoDB service";
    "3. Check network connectivity between pods";
    "4. Verify MongoDB service configuration";
    "5. Check if the MongoDB service name is correct";
    "";
    "**Specific MongoDB Fix**:";
    "1. Check if MongoDB service exists: `kubectl get svc -n mongodb`";
    "2. Verify DNS resolution: `nslookup mongodb-central-stg-headless.mongodb.svc.cluster.local`";
    "3. Check pod connectivity: `kubectl exec -it <pod-name> -- nslookup mongodb-central-stg-headless.mongodb.svc.cluster.local`";
    "4. Verify MongoDB service configuration in Kubernetes";
    "5. Check if MongoDB pods are running: `kubectl get pods -n mongodb`";
    "6. Check MongoDB service endpoints: `kubectl get endpoints -n mongodb mongodb-central-stg-headless`";
    "7. Verify network policies: `kubectl get networkpolicies -n mongodb`";
    "8. Check if MongoDB is accessible from the build pod";
    "" ].

Definition authentication_error : list string :=
  [ "**Root Cause**: Authentication/API Key Error";
    "- The build failed due to an authentication error";
    "- This is likely related to API keys or credentials";
    "- Check environment variables and API key configuration";
    "" ].

Definition npm_dependency_issue : list string :=
  [ "**Root Cause**: Node.js/npm Dependency Issue";
    "- The build failed during npm install or node execution";
    "- Check package.json and node_modules";
    "- Verify all dependencies are properly specified";
    "" ].

Definition docker_issue : list string :=
  [ "**Root Cause**: Docker/Container Issue";
    "- The build failed during Docker operations";
    "- Check Dockerfile and container configuration";
    "- Verify Docker daemon is running";
    "- Check ECR access and permissions";
    "" ].

Definition git_issue : list string :=
  [ "**Root Cause**: Git Repository Issue";
    "- The build failed during Git operations";
    "- Check repository access and credentials";
    "- Verify branch names and commit hashes";
    "" ].

Definition general_build_failure : list string :=
  [ "**Root Cause**: General Build Failure";
    "- The build failed for an unknown reason";
    "- Check the error logs for specific details";
    "" ].

Definition fix_suggestions : list string :=
  [ "**General Fix Suggestions**:";
    "1. Check environment variables and API keys";
    "2. Verify repository access and permissions";
    "3. Review build configuration files";
    "4. Check for dependency conflicts";
    "5. Verify network connectivity";
    "";
    "**Priority**: High";
    "**Estimated Time**: 30-60 minutes";
    "" ].

Definition note : string :=
  "*Note: This is a local analysis. For more detailed AI-powered analysis, please set up Azure OpenAI API key.*".

Definition repositories_involved (failure_repos success_repos : list string)
    : list string :=
  [ "**Repositories Involved**:";
    "- Failure repos: " +:+ Py.join ", " failure_repos;
    "- Success repos: " +:+ Py.join ", " success_repos;
    "" ].

Definition error_details (errors_found : list string) : list string :=
  match errors_found with
  | [] => []
  | _ => ["**Error Details**:"] ++
         map (λ error, "- " +:+ error) (take 5 errors_found) ++ [""]
  end.

(** The categories of the [if]/[elif] chain, first match first. *)
Inductive category :=
| MongoConnection
| Authentication
| NodeNpm
| DockerContainer
| GitRepository
| GeneralFailure.

Definition categorize (failure_content : string) : category :=
  if Py.contains "MongoServerSelectionError" failure_content
     || Py.contains "MongoNetworkError" failure_content
     || Py.contains "getaddrinfo ENOTFOUND" failure_content
  then MongoConnection
  else if Py.contains "AuthenticationError" failure_content
          || Py.contains "401" failure_content
  then Authentication
  else if Py.contains "npm" (Py.lower failure_content)
          || Py.contains "node" (Py.lower failure_content)
  then NodeNpm
  else if Py.contains "docker" (Py.lower failure_content)
          || Py.contains "ecr" (Py.lower failure_content)
  then DockerContainer
  else if Py.contains "git" (Py.lower failure_content)
  then GitRepository
  else GeneralFailure.

Definition root_cause (c : category) : list string :=
  match c with
  | MongoConnection => mongodb_connection_issue
  | Authentication => authentication_error
  | NodeNpm => npm_dependency_issue
  | DockerContainer => docker_issue
  | GitRepository => git_issue
  | GeneralFailure => general_build_failure
  end.

Definition local_result (text : string) (failure_repos success_repos : list string)
    (kind : analysis_kind) : diagnosis :=
  {| analysis := text;
     failure_repos := failure_repos;
     success_repos := success_repos;
     failure_log_path := None;
     success_log_path := None;
     analysis_type := kind;
     build_information := None;
     repository_context_used := None |}.

Definition _local_analysis (failure_content success_content : string)
    (failure_repos success_repos : list string) : diagnosis :=
  let errors_found :=
    flat_map (λ pattern, Re.findall pattern failure_content) error_patterns in
  let c := categorize failure_content in
  let templated :=
    Py.unlines (header ++ root_cause c ++
                repositories_involved failure_repos success_repos ++
                error_details errors_found ++
                fix_suggestions) +:+ note in
  match c with
  | MongoConnection =>
      match MongoDBAnalyzer.analyze_mongodb_issue failure_content with
      | MongoDBAnalyzer.MongoIssue _ specialized =>
          local_result specialized failure_repos success_repos mongodb_specialized
      | MongoDBAnalyzer.NotMongo =>
          local_result templated failure_repos success_repos local
      end
  | _ => local_result templated failure_repos success_repos local
  end.

(** [mongodb_analysis["analysis"]] with the build information appended. *)
Definition enhanced_analysis (specialized failure_log_path : string)
    (info : build_info) (failure_repos : list string) : string :=
  specialized +:+
  Py.unlines
    [ ""; "";
      "**Build Information**:";
      "- Build File: " +:+ Py.basename failure_log_path;
      "- Build Number: " +:+ get_or_unknown (build_number info);
      "- Build Time: " +:+ get_or_unknown (build_time info);
      "- Repositories: " +:+ Py.join ", " failure_repos ].

Definition analysis_prompt (failure_log_path : string) (info : build_info)
    (failure_repos success_repos : list string)
    (failure_content success_content repo_context : string) : prompt :=
  {| p_build_file := Py.basename failure_log_path;
     p_build_number := get_or_unknown (build_number info);
     p_build_time := get_or_unknown (build_time info);
     p_failure_repos := failure_repos;
     p_success_repos := success_repos;
     p_failure_log := Py.take 2000 failure_content;
     p_success_log :=
       if Py.truthy success_content then Py.take 1000 success_content
       else "No success log available";
     p_repository_context := repo_context |}.

(** [if success_log_path] on an optional argument. *)
Definition given (path : option string) : option string :=
  match path with
  | Some p => if Py.truthy p then Some p else None
  | None => None
  end.

Definition load_success_log (fs : gmap string FS.node)
    (success_log_path : option string) : outcome string :=
  match given success_log_path with
  | Some p => if FS.exists_ fs p then FS.read fs p else mret ""
  | None => mret ""
  end.

Definition analyze_failure (sv : services) (fs : gmap string FS.node)
    (failure_log_path : string) (success_log_path : option string)
    : outcome diagnosis :=
  failure_content ← FS.read fs failure_log_path;
  success_content ← load_success_log fs success_log_path;
  let failure_repos := _extract_repos_from_log fs failure_log_path in
  let success_repos :=
    match given success_log_path with
    | Some p => _extract_repos_from_log fs p
    | None => []
    end in
  match MongoDBAnalyzer.analyze_mongodb_issue failure_content with
  | MongoDBAnalyzer.MongoIssue _ specialized =>
      let info := _extract_build_info sv failure_log_path failure_content in
      mret {| analysis :=
                enhanced_analysis specialized failure_log_path info failure_repos;
              failure_repos := failure_repos;
              success_repos := success_repos;
              failure_log_path := Some failure_log_path;
              success_log_path := Some success_log_path;
              analysis_type := mongodb_specialized;
              build_information := Some info;
              repository_context_used := None |}
  | MongoDBAnalyzer.NotMongo =>
      match llm sv with
      | None =>
          mret (_local_analysis failure_content success_content
                  failure_repos success_repos)
      | Some invoke =>
          let info := _extract_build_info sv failure_log_path failure_content in
          let repo_context :=
            _get_repository_context sv fs failure_repos failure_content in
          match invoke (analysis_prompt failure_log_path info failure_repos
                          success_repos failure_content success_content
                          repo_context) with
          | Some content =>
              mret {| analysis := content;
                      failure_repos := failure_repos;
                      success_repos := success_repos;
                      failure_log_path := Some failure_log_path;
                      success_log_path := Some success_log_path;
                      analysis_type := azure_openai_with_context;
                      build_information := Some info;
                      repository_context_used := Some true |}
          | None =>
              mret (_local_analysis failure_content success_content
                      failure_repos success_repos)
          end
      end
  end.

End JenkinsAnalyzer.

(** ** jenkins_fetch_and_vectorize.py *)

(** What running [git clone] did: the process ended with a return code,
    was killed at the timeout, or could not be started. *)
Inductive git_result :=
| Exited (returncode : Z) (stderr : string)
| TimeoutExpired
| SpawnFailed.

(** The [git] program: what [git clone url dir] answers on a file system
    and the file system it leaves.  A clone that ends with return code 0
    has created its target. *)
Record git_tool := GitTool {
  git_clone : string → string → gmap string FS.node →
              git_result * gmap string FS.node;
  git_clone_creates : ∀ url dir fs err fs',
    git_clone url dir fs = (Exited 0 err, fs') → is_Some (fs' !! dir)
}.

(** The files, and the [git clone] commands run so far (url, target). *)
Record world := World {
  files : gmap string FS.node;
  fetched : list (string * string)
}.

Module Fetch.

Definition github_pattern : Re.pattern :=
  Re.lit "https://github.com/" ++ [Re.Atom Re.not_space Re.Plus] ++ Re.lit ".git".

Definition cloning_pattern : Re.pattern :=
  Re.lit "Cloning repository " ++
  Re.group (Re.lit "https://github.com/" ++ [Re.Atom Re.not_space Re.Plus]).

Definition repo_candidates (content : string) : list string :=
  let first_line := Py.strip (hd "" (Py.split "010" content)) in
  (if Py.truthy first_line && Py.contains "," first_line
   then map Py.strip (Py.split "," first_line) else []) ++
  Re.findall github_pattern content ++
  Re.findall cloning_pattern content.

(** The test of the validation loop. *)
Definition valid_repo (repo : string) : bool :=
  Py.startswith "https://github.com/" repo
  && Py.endswith ".git" repo
  && (5 <=? length (Py.split "/" repo))%nat
  && negb (Py.contains "api.git" repo).

Definition additional_repos : list string :=
  [ "https://github.com/Meesho/devops-lib.git";
    "https://github.com/Meesho/ringmaster-backend.git";
    "https://github.com/Meesho/ringmaster-frontend.git" ].

(** [if repo not in valid_repos: valid_repos.append(repo)] *)
Definition append_if_absent (valid_repos : list string) (repo : string)
    : list string :=
  if bool_decide (repo ∈ valid_repos) then valid_repos
  else valid_repos ++ [repo].

Definition extract_repos_body (fs : gmap string FS.node) (log_path : string)
    : outcome (list string) :=
  content ← FS.read fs log_path;
  let repos := JenkinsAnalyzer.list_of_set (repo_candidates content) in
  let valid_repos := List.filter valid_repo repos in
  mret (foldl append_if_absent valid_repos additional_repos).

Definition extract_repos_from_log (fs : gmap string FS.node) (log_path : string)
    : list string :=
  try_except (extract_repos_body fs log_path) (λ _, []).

(** [subprocess.run(['git', 'clone', repo_url, target_dir], timeout=300)]:
    the command is recorded and the tool's answer returned. *)
Definition run_git_clone (git : git_tool) (repo_url target_dir : string)
    (w : world) : git_result * world :=
  let '(result, fs') := git_clone git repo_url target_dir (files w) in
  (result, World fs' (fetched w ++ [(repo_url, target_dir)])).

Definition clone_repository (git : git_tool) (repo_url target_dir : string)
    (w : world) : bool * world :=
  if FS.exists_ (files w) target_dir then (true, w)
  else
    let '(result, w') := run_git_clone git repo_url target_dir w in
    match result with
    | Exited returncode _ => (bool_decide (returncode = 0%Z), w')
    | TimeoutExpired => (false, w')
    | SpawnFailed => (false, w')
    end.

End Fetch.

(** ** vector_indexer.py *)

(** A LangChain [Document]. *)
Record document := Document {
  page_content : string;
  metadata : gmap string string
}.

(** What indexing relies on: the files below a directory that match a
    glob, [TextLoader(file).load()], [text_splitter.split_documents] and
    [FAISS.from_documents] followed by [save_local]; [None] and [false]
    stand for a raised exception. *)
Record index_backend := IndexBackend {
  rglob : string → string → list string;
  load : string → option (list document);
  split_documents : list document → option (list document);
  embed_and_save : list document → string → bool
}.

Module VectorIndexer.

Definition REPO_DIR : string := "cloned_repos".

(** [RecursiveCharacterTextSplitter(chunk_size=800, chunk_overlap=100)] *)
Definition chunk_size : nat := 800.
Definition chunk_overlap : nat := 100.

Definition extensions : list string :=
  [ "**/*.py"; "**/*.md"; "**/*.txt"; "**/*.js"; "**/*.ts"; "**/*.json";
    "**/*.yaml"; "**/*.yml"; "**/*.Jenkinsfile"; "**/*.Dockerfile" ].

(** [os.makedirs(REPO_DIR)] when it does not exist. *)
Definition ensure_repo_dir (w : world) : world :=
  if FS.exists_ (files w) REPO_DIR then w
  else World (<[REPO_DIR := FS.Directory]> (files w)) (fetched w).

(** [os.path.join(REPO_DIR, url.split("/")[-1].replace(".git", ""))] *)
Definition repo_path (url : string) : string :=
  REPO_DIR +:+ "/" +:+ Py.remove_all ".git" (Py.last_segment url).

(** [subprocess.run([...], check=True)]: anything but return code 0
    raises. *)
Definition clone_repo (git : git_tool) (url : string) (w : world)
    : outcome string * world :=
  let w := ensure_repo_dir w in
  let path := repo_path url in
  if FS.exists_ (files w) path then (Return path, w)
  else
    let '(result, w') := Fetch.run_git_clone git url path w in
    match result with
    | Exited returncode _ =>
        if bool_decide (returncode = 0%Z) then (Return path, w')
        else (Raise CalledProcessError, w')
    | TimeoutExpired => (Raise TimeoutExpiredError, w')
    | SpawnFailed => (Raise FileNotFoundError, w')
    end.

(** [d.metadata.update(metadata)] *)
Definition update_metadata (extra : gmap string string) (d : document) : document :=
  Document (page_content d) (extra ∪ metadata d).

(** The body of the loop over files, with its [try]/[except: continue]. *)
Definition chunks_of_file (be : index_backend)
    (extra : option (gmap string string)) (file : string) : list document :=
  match load be file with
  | Some docs =>
      match split_documents be docs with
      | Some split_docs =>
          match extra with
          | Some m => if bool_decide (m = ∅) then split_docs
                      else map (update_metadata m) split_docs
          | None => split_docs
          end
      | None => []
      end
  | None => []
  end.

Definition collect_documents (be : index_backend) (directory_path : string)
    (extra : option (gmap string string)) : list document :=
  flat_map (λ ext, flat_map (chunks_of_file be extra) (rglob be directory_path ext))
           extensions.

(** The persisted indices, by path.  [chunk_and_store_to_vector_db]
    returns nothing; its effect is the new state of the store. *)
Definition chunk_and_store_to_vector_db (be : index_backend)
    (directory_path vectorstore_path : string)
    (extra : option (gmap string string))
    (store : gmap string (list document)) : gmap string (list document) :=
  match collect_documents be directory_path extra with
  | [] => store
  | documents =>
      if embed_and_save be documents vectorstore_path
      then <[vectorstore_path := documents]> store
      else store
  end.

End VectorIndexer.

(** ** routes.py: one log of [analyze_batch_logs] *)

Module Routes.

(** An element of ["results"]: the analysis with status ["completed"], or
    an ["error"] with status ["failed"]. *)
Inductive batch_error :=
| file_not_found
| exception (e : exn).

Inductive batch_entry :=
| completed (log_path : string) (analysis : JenkinsAnalyzer.diagnosis)
| failed (log_path : string) (error : batch_error).

Definition analyze_batch_log (sv : services) (fs : gmap string FS.node)
    (log_path : string) : batch_entry :=
  if FS.exists_ fs log_path then
    match JenkinsAnalyzer.analyze_failure sv fs log_path None with
    | Return analysis => completed log_path analysis
    | Raise e => failed log_path (exception e)
    end
  else failed log_path file_not_found.

Definition analyze_batch_logs (sv : services) (fs : gmap string FS.node)
    (log_paths : list string) : list batch_entry :=
  map (analyze_batch_log sv fs) log_paths.

End Routes.

(** ** Statements shared by the properties *)

(** The services with another language model in place of [self.llm]. *)
Definition with_llm (l : option (prompt → option string)) (sv : services)
    : services :=
  Services l (rag_run sv) (datetime sv) (strptime sv) (strftime sv).

(** [path] names a text file that opens and reads. *)
Definition readable (fs : gmap string FS.node) (path : string) : Prop :=
  ∃ content, fs !! path = Some (FS.TextFile content).

(** The comparison log does not stand in the way: it is not given, it is
    the empty string, it does not exist, or it reads. *)
Definition comparison_log_ok (fs : gmap string FS.node)
    (success_log_path : option string) : Prop :=
  ∀ p, success_log_path = Some p → p ≠ "" → fs !! p = None ∨ readable fs p.

(** [needle] occurs in [text], whatever the case of its letters. *)
Definition occurs_ignoring_case (needle text : string) : Prop :=
  ∃ before found after,
    text = before +:+ found +:+ after ∧ Py.lower found = Py.lower needle.

(** The shape that the validation loop of [Fetch.extract_repos_from_log]
    accepts. *)
Definition repository_shape (repo : string) : Prop :=
  Py.startswith "https://github.com/" repo = true ∧
  Py.endswith ".git" repo = true ∧
  5 ≤ length (Py.split "/" repo) ∧
  Py.contains "api.git" repo = false.

(** Every character of [s] is in the class [P]. *)
Fixpoint all_chars (P : ascii → bool) (s : string) : bool :=
  match s with
  | "" => true
  | String c s' => P c && all_chars P s'
  end.

(** [p] is made of classes only, each contained in [P]. *)
Fixpoint atoms_within (P : ascii → bool) (p : Re.pattern) : Prop :=
  match p with
  | [] => True
  | Re.Atom cls _ :: p' => (∀ c, cls c = true → P c = true) ∧ atoms_within P p'
  | _ => False
  end.

(** [s] is empty or starts with a character that is not white space. *)
Definition head_ok (s : string) : Prop :=
  match s with
  | "" => True
  | String c _ => Py.is_space c = false
  end.

(** The directory yields at least one chunk: [if not documents] fails. *)
Definition collect_documents_nonempty (be : index_backend)
    (directory_path : string) (extra : option (gmap string string)) : bool :=
  match VectorIndexer.collect_documents be directory_path extra with
  | [] => false
  | _ => true
  end.

(** ** Sample environments *)

Module Sample.

(** A [datetime] for the time stamps of file names: eight digits, an
    underscore and six digits, read as year, month, day, hour, minute
    and second, each checked against its range. *)
Record stamp := Stamp {
  year : nat; month : nat; day : nat;
  hour : nat; minute : nat; second : nat
}.

Fixpoint number (acc : nat) (s : string) : option nat :=
  match s with
  | "" => Some acc
  | String c s' =>
      if Py.is_digit c then number (10 * acc + (Py.code c - 48)) s' else None
  end.

Definition leap (y : nat) : bool :=
  ((y mod 4 =? 0)%nat && negb (y mod 100 =? 0)%nat) || (y mod 400 =? 0)%nat.

Definition days_in_month (y m : nat) : nat :=
  match m with
  | 2 => if leap y then 29 else 28
  | 4 | 6 | 9 | 11 => 30
  | _ => 31
  end.

Definition in_range (t : stamp) : bool :=
  (1 <=? year t)%nat
  && (1 <=? month t)%nat && (month t <=? 12)%nat
  && (1 <=? day t)%nat && (day t <=? days_in_month (year t) (month t))%nat
  && (hour t <? 24)%nat && (minute t <? 60)%nat && (second t <? 60)%nat.

Definition field (from len : nat) (text : string) : option nat :=
  number 0 (Py.take len (Py.drop from text)).

Definition parse (text format : string) : option stamp :=
  if String.eqb format "%Y%m%d_%H%M%S"
     && (String.length text =? 15)%nat
     && String.eqb (Py.take 1 (Py.drop 8 text)) "_"
  then
    y ← field 0 4 text; mo ← field 4 2 text; d ← field 6 2 text;
    h ← field 9 2 text; mi ← field 11 2 text; s ← field 13 2 text;
    let t := Stamp y mo d h mi s in
    if in_range t then Some t else None
  else None.

Definition digit (n : nat) : string := String (ascii_of_nat (48 + n)) "".

Definition two (n : nat) : string := digit (n / 10) +:+ digit (n mod 10).

Definition render (t : stamp) (format : string) : option string :=
  if String.eqb format "%Y-%m-%d %H:%M:%S" then
    Some (two (year t / 100) +:+ two (year t mod 100) +:+ "-" +:+
          two (month t) +:+ "-" +:+ two (day t) +:+ " " +:+
          two (hour t) +:+ ":" +:+ two (minute t) +:+ ":" +:+ two (second t))
  else None.

(** No language model configured, no vector store answering. *)
Definition offline : services :=
  Services None (λ _ _, None) stamp parse render.

(** A language model that answers every prompt. *)
Definition online : services :=
  with_llm (Some (λ _, Some "The build failed while resolving a host name.")) offline.

(** A [git] whose clone fails and leaves nothing behind. *)
Program Definition failing_git : git_tool :=
  GitTool (λ _ _ fs, (Exited 128 "fatal: unable to access the repository", fs)) _.
Next Obligation. intros url dir fs err fs' H. discriminate H. Qed.

(** A [git] whose clone creates the target directory. *)
Program Definition working_git : git_tool :=
  GitTool (λ _ dir fs, (Exited 0 "", <[dir := FS.Directory]> fs)) _.
Next Obligation.
  intros url dir fs err fs' H. injection H as _ <-.
  rewrite lookup_insert_eq. by eexists.
Qed.

Definition dns_log : string :=
  "Error: getaddrinfo ENOTFOUND mongodb-central-stg-headless.mongodb.svc.cluster.local".

Definition plain_log : string := "Step 4 exited with code 1".

Definition logs : gmap string FS.node :=
  {[ "logs/failure/build_12_20240131_101500.txt" := FS.TextFile dns_log;
     "logs/failure/build_13_20240230_101500.txt" := FS.TextFile plain_log;
     "logs/failure/frontend.txt" := FS.TextFile "http://foo";
     "logs/success" := FS.Directory ]}.

(** A back end with one Python file under ["cloned_repos/app"], loaded as
    a single chunk. *)
Definition new_chunk : document := Document "print('new')" ∅.
Definition old_chunk : document := Document "print('old')" ∅.

Definition one_file : index_backend :=
  IndexBackend
    (λ dir ext, if String.eqb dir "cloned_repos/app" && String.eqb ext "**/*.py"
                then ["cloned_repos/app/main.py"] else [])
    (λ _, Some [new_chunk])
    (λ docs, Some docs)
    (λ _ _, true).

End Sample.

(** ** jenkins.py: the fetcher *)

(** A build of the job listing, and a build chosen by
    [get_latest_builds] with the address of its console text. *)
Record build := Build {
  build_url : string;
  build_id : Z
}.

Record chosen_build := ChosenBuild {
  console_url : string;
  number : Z;
  result : string
}.

(** The answer to the request for the details of one build: the request
    raised, or it came back with a status code and the ['result'] of its
    JSON ([None] when the key is missing or null). *)
Inductive build_details :=
| DetailsUnavailable
| DetailsStatus (code : Z) (details_result : option string).

(** The Jenkins server: the builds listed by a job address ([None] when
    the request or its decoding raises), and the details of a build. *)
Record jenkins_server := JenkinsServer {
  job_builds : string → option (list build);
  details_of : string → build_details
}.

Module JenkinsFetcher.

Definition success_indicators : list string :=
  [ "Finished: SUCCESS";
    "SUCCESS";
    "Build completed successfully";
    "Pipeline completed successfully" ].

Definition failure_indicators : list string :=
  [ "Finished: FAILURE";
    "FAILURE";
    "Build failed";
    "Pipeline failed";
    "ERROR:";
    "Exception:";
    "Failed to" ].

(** One of the [for indicator in ...] loops: some indicator, lowered,
    occurs in the lowered content. *)
Definition any_indicator (indicators : list string) (content_lower : string) : bool :=
  existsb (λ indicator, Py.contains (Py.lower indicator) content_lower) indicators.

Definition _determine_build_status (console_content : string) : bool :=
  let content_lower := Py.lower console_content in
  if any_indicator success_indicators content_lower then true
  else if any_indicator failure_indicators content_lower then false
  else false.

(** The module-level [validate_url]. *)
Definition validate_url (url : string) : bool :=
  Py.startswith "http" url && Py.contains "jenkins" url.

Definition choose (b : build) (result : string) : chosen_build :=
  ChosenBuild (build_url b +:+ "consoleText") (build_id b) result.

(** The body of the loop over [latest_builds]; the [bool] tells whether
    the loop breaks. *)
Definition examine (server : jenkins_server) (b : build)
    (latest_failure latest_success : option chosen_build)
    : option chosen_build * option chosen_build * bool :=
  match details_of server (build_url b +:+ "api/json") with
  | DetailsStatus 200 result =>
      let '(latest_failure, latest_success) :=
        if bool_decide (result = Some "SUCCESS") && negb (bool_decide (is_Some latest_success))
        then (latest_failure, Some (choose b "SUCCESS"))
        else if bool_decide (result = Some "FAILURE")
                && negb (bool_decide (is_Some latest_failure))
        then (Some (choose b "FAILURE"), latest_success)
        else (latest_failure, latest_success) in
      (latest_failure, latest_success,
       bool_decide (is_Some latest_success) && bool_decide (is_Some latest_failure))
  | _ => (latest_failure, latest_success, false)
  end.

Fixpoint scan (server : jenkins_server) (latest_builds : list build)
    (latest_failure latest_success : option chosen_build)
    : option chosen_build * option chosen_build :=
  match latest_builds with
  | [] => (latest_failure, latest_success)
  | b :: later =>
      let '(latest_failure, latest_success, stop) :=
        examine server b latest_failure latest_success in
      if stop then (latest_failure, latest_success)
      else scan server later latest_failure latest_success
  end.

(** [jenkins_url[:-1]] when the address ends with a slash. *)
Definition without_trailing_slash (jenkins_url : string) : string :=
  if Py.endswith "/" jenkins_url
  then Py.take (String.length jenkins_url - 1) jenkins_url
  else jenkins_url.

(** [auth] tells whether [self.auth] is set.  Every exception of the
    outer [try] gives [(None, None)]. *)
Definition get_latest_builds (auth : bool) (server : jenkins_server)
    (jenkins_url : string) : option chosen_build * option chosen_build :=
  if negb auth then (None, None)
  else
    match job_builds server (without_trailing_slash jenkins_url +:+ "/api/json") with
    | None => (None, None)
    | Some [] => (None, None)
    | Some ((latest_build :: _) as builds) =>
        match scan server (take 10 builds) None None with
        | (None, None) => (Some (choose latest_build "UNKNOWN"), None)
        | found => found
        end
    end.

End JenkinsFetcher.

(** ** jenkins_fetch_and_vectorize.py: the whole of a log *)

Module FetchPipeline.

(** The body of the loop that clones: the target is
    [cloned_repos/<name>] and is kept when the clone reports success. *)
Definition clone_step (git : git_tool) (state : list string * world)
    (repo_url : string) : list string * world :=
  let '(cloned_repos, w) := state in
  let target_dir := "cloned_repos/" +:+ JenkinsAnalyzer.repo_name repo_url in
  let '(ok, w') := Fetch.clone_repository git repo_url target_dir w in
  (if ok then cloned_repos ++ [target_dir] else cloned_repos, w').

(** [process_log_and_repos(log_path, tag)]: the references of the log are
    cloned, every cloned directory is indexed, then the log itself; each
    index is stored at [tag], the second argument of
    [chunk_and_store_to_vector_db]. *)
Definition process_log_and_repos (git : git_tool) (be : index_backend)
    (log_path tag : string) (w : world) (store : gmap string (list document))
    : world * gmap string (list document) :=
  let repos := Fetch.extract_repos_from_log (files w) log_path in
  let '(cloned_repos, w') := foldl (clone_step git) ([], w) repos in
  let store' :=
    foldl (λ st repo_dir,
             VectorIndexer.chunk_and_store_to_vector_db be repo_dir tag None st)
          store cloned_repos in
  (w', VectorIndexer.chunk_and_store_to_vector_db be log_path tag None store').

End FetchPipeline.

(** ** vector_indexer.py: the build of the global store *)

Module IndexerBuild.


(** [f.readline()]: the text up to the first newline, newline included. *)
Fixpoint readline (content : string) : string :=
  match content with
  | "" => ""
  | String c rest =>
      if Ascii.eqb c "010" then Py.nl else String c (readline rest)
  end.


(** The first-line extractor of this file: no [try], so an unreadable log
    raises; the read of the first line is the read of the file. *)
Definition extract_repos_from_log (fs : gmap string FS.node) (log_path : string)
    : outcome (list string) :=
  content ← FS.read fs log_path;
  let first_line := Py.strip (readline content) in
  if Py.startswith "http" first_line || Py.contains "github.com" first_line
  then mret (Py.split "," first_line)
  else mret [].







End IndexerBuild.

(** ** routes.py: the answer of [analyze_batch_logs] *)

Module BatchRoute.

Record batch_response := BatchResponse {
  total_logs : nat;
  completed : nat;
  failed : nat;
  results : list Routes.batch_entry
}.

Definition is_completed (entry : Routes.batch_entry) : bool :=
  match entry with
  | Routes.completed _ _ => true
  | Routes.failed _ _ => false
  end.

Definition entry_path (entry : Routes.batch_entry) : string :=
  match entry with
  | Routes.completed log_path _ => log_path
  | Routes.failed log_path _ => log_path
  end.

Definition respond (sv : services) (fs : gmap string FS.node)
    (log_paths : list string) : batch_response :=
  let results := Routes.analyze_batch_logs sv fs log_paths in
  {| total_logs := length log_paths;
     completed := length (List.filter is_completed results);
     failed := length (List.filter (λ r, negb (is_completed r)) results);
     results := results |}.

End BatchRoute.

(** ** Further statements and sample environments *)

(** [text] holds [needle] as it is written. *)
Definition occurs (needle text : string) : Prop :=
  ∃ before after, text = before +:+ needle +:+ after.

(** The details of [b] are those of a build that ended with [wanted]. *)
Definition ended_with (server : jenkins_server) (wanted : string) (b : build) : bool :=
  match details_of server (build_url b +:+ "api/json") with
  | DetailsStatus code result =>
      bool_decide (code = 200%Z) && bool_decide (result = Some wanted)
  | DetailsUnavailable => false
  end.

(** No vector store answers usefully for [repo_url]. *)
Definition no_context_for (sv : services) (fs : gmap string FS.node)
    (failure_content repo_url : string) : Prop :=
  let path := "vectorstore/" +:+ JenkinsAnalyzer.repo_name repo_url +:+ "_vectorstore" in
  fs !! path = None ∨
  ∀ result,
    rag_run sv path ("Find relevant code and configuration related to: " +:+
                     Py.take 500 failure_content) = Some result →
    String.length result ≤ 50.

(** [first] when it is set, [second] otherwise. *)
Definition or_else {A} (first second : option A) : option A :=
  match first with
  | Some _ => first
  | None => second
  end.

(** The first build of the list that ended with [wanted], as it is chosen. *)
Definition first_ended_with (server : jenkins_server) (wanted : string)
    (builds : list build) : option chosen_build :=
  (λ b, JenkinsFetcher.choose b wanted) <$> List.find (ended_with server wanted) builds.

Module Scenario.

(** A [git] killed at the timeout, after it made the target directory. *)
Program Definition interrupted_git : git_tool :=
  GitTool (λ _ dir fs, (TimeoutExpired, <[dir := FS.Directory]> fs)) _.
Next Obligation. intros url dir fs err fs' H. discriminate H. Qed.

(** A server with three builds: the newest still running, then a failure
    and a success. *)
Definition three_builds : list build :=
  [ Build "https://jenkins/job/app/12/" 12;
    Build "https://jenkins/job/app/11/" 11;
    Build "https://jenkins/job/app/10/" 10 ].

Definition server : jenkins_server :=
  JenkinsServer
    (λ _, Some three_builds)
    (λ address,
       if String.eqb address "https://jenkins/job/app/11/api/json"
       then DetailsStatus 200 (Some "FAILURE")
       else if String.eqb address "https://jenkins/job/app/10/api/json"
       then DetailsStatus 200 (Some "SUCCESS")
       else DetailsStatus 200 None).

(** Two logs on disk; the second does not decode. *)
Definition disk : gmap string FS.node :=
  {[ "logs/success/build_1.txt" :=
       FS.TextFile "https://github.com/a/b.git,https://github.com/c/d.git";
     "logs/failure/build_2.txt" := FS.Unreadable ]}.


End Scenario.


(** * Properties *)

(** ** Strings *)

Lemma app_cons c s t : String c s +:+ t = String c (s +:+ t).
Proof. reflexivity. Qed.

Lemma app_empty_l t : "" +:+ t = t.
Proof. reflexivity. Qed.

Lemma app_empty_r s : s +:+ "" = s.
Proof. induction s as [|c s IH]; [done|]. by rewrite app_cons, IH. Qed.

Lemma app_assoc_string s t u : (s +:+ t) +:+ u = s +:+ t +:+ u.
Proof. induction s as [|c s IH]; [done|]. by rewrite !app_cons, IH. Qed.

Lemma length_app_string s t :
  String.length (s +:+ t) = String.length s + String.length t.
Proof. induction s as [|c s IH]; [done|]. rewrite app_cons. simpl. by rewrite IH. Qed.

Lemma app_nonempty_l s t : s ≠ "" → s +:+ t ≠ "".
Proof. destruct s; [done|]. by rewrite app_cons. Qed.

Lemma take_app_length s t :
  Py.take (String.length (s +:+ t) - String.length t) (s +:+ t) = s.
Proof.
  rewrite length_app_string.
  replace (String.length s + String.length t - String.length t)
    with (String.length s) by lia.
  induction s as [|c s IH].
  - rewrite app_empty_l. by destruct t.
  - rewrite app_cons. simpl. by rewrite IH.
Qed.

Lemma flat_map_nonempty {A B} (f : A → list B) (l : list A) (x : A) :
  x ∈ l → f x ≠ [] → flat_map f l ≠ [].
Proof.
  induction 1 as [x l|x y l _ IH]; simpl; intros Hx.
  - destruct (f x); [done|]. discriminate.
  - intros Happ. apply app_eq_nil in Happ as [_ Hl]. by apply IH.
Qed.

(** ** The matcher *)

Lemma star_continues cls k s :
  (∀ s', is_Some (k s')) → is_Some (Re.star cls k s).
Proof.
  intros Hk. induction s as [|c s IH]; simpl; [apply Hk|].
  destruct (cls c); [|apply Hk].
  destruct IH as [f ->]. by eexists.
Qed.

Lemma any_star_matches s : is_Some (Re.match_here Re.any_star s).
Proof. apply star_continues. intros s'. by eexists. Qed.

(** A literal under [re.IGNORECASE] takes any text equal to it up to the
    case of the letters. *)
Lemma match_lit_i literal p found after :
  Py.lower found = Py.lower literal →
  Re.match_here (Re.lit_i literal ++ p) (found +:+ after) = Re.match_here p after.
Proof.
  revert found. induction literal as [|a literal IH]; intros [|c found] Heq;
    simpl in Heq; try discriminate; [done|].
  injection Heq as Hc Hrest.
  rewrite app_cons. simpl.
  unfold Re.ignoring_case. rewrite Hc, Ascii.eqb_refl. by apply IH.
Qed.

(** [findall] reports something as soon as the pattern matches somewhere. *)
Lemma findall_nonempty p before s :
  is_Some (Re.match_here p s) → Re.findall p (before +:+ s) ≠ [].
Proof.
  intros [f Hf]. unfold Re.findall.
  induction before as [|c before IH].
  - rewrite app_empty_l. destruct s; simpl; by rewrite Hf.
  - rewrite app_cons. simpl.
    destruct (Re.match_here p (String c (before +:+ s))); [done|]. apply IH.
Qed.

Lemma findall_signature literal text :
  occurs_ignoring_case literal text →
  Re.findall (Re.lit_i literal ++ Re.any_star) text ≠ [].
Proof.
  intros (before & found & after & -> & Hcase).
  apply findall_nonempty. rewrite (match_lit_i _ _ _ _ Hcase).
  apply any_star_matches.
Qed.

(** ** The specialized detector *)

Lemma dns_signature_detected text :
  occurs_ignoring_case "getaddrinfo ENOTFOUND" text →
  MongoDBAnalyzer.is_mongodb_issue (MongoDBAnalyzer.analyze_mongodb_issue text) = true.
Proof.
  intros Hocc. unfold MongoDBAnalyzer.analyze_mongodb_issue.
  assert (MongoDBAnalyzer.find_errors text ≠ []) as Hne.
  { unfold MongoDBAnalyzer.find_errors.
    apply (flat_map_nonempty _ _ (Re.lit_i "getaddrinfo ENOTFOUND" ++ Re.any_star)).
    - unfold MongoDBAnalyzer.mongodb_error_patterns. set_solver.
    - by apply findall_signature. }
  by destruct (MongoDBAnalyzer.find_errors text).
Qed.

(** ** Reading the logs *)

Lemma read_text fs path content :
  fs !! path = Some (FS.TextFile content) → FS.read fs path = Return content.
Proof. unfold FS.read. by intros ->. Qed.

Lemma load_success_log_returns fs success_log_path :
  comparison_log_ok fs success_log_path →
  ∃ content, JenkinsAnalyzer.load_success_log fs success_log_path = Return content.
Proof.
  intros Hok. unfold JenkinsAnalyzer.load_success_log, JenkinsAnalyzer.given.
  destruct success_log_path as [p|]; [|by eexists].
  destruct p as [|c p]; simpl; [by eexists|].
  unfold FS.exists_. case_bool_decide as Hex; [|by eexists].
  destruct (Hok _ eq_refl) as [Hnone|[content Hread]]; [done| |].
  - rewrite Hnone in Hex. by destruct Hex.
  - exists content. by apply read_text.
Qed.

(** ** The tiers of [analyze_failure] *)

Lemma analyze_failure_unfold sv fs failure_log_path success_log_path
    failure_content success_content :
  FS.read fs failure_log_path = Return failure_content →
  JenkinsAnalyzer.load_success_log fs success_log_path = Return success_content →
  JenkinsAnalyzer.analyze_failure sv fs failure_log_path success_log_path =
  let failure_repos := JenkinsAnalyzer._extract_repos_from_log fs failure_log_path in
  let success_repos :=
    match JenkinsAnalyzer.given success_log_path with
    | Some p => JenkinsAnalyzer._extract_repos_from_log fs p
    | None => []
    end in
  match MongoDBAnalyzer.analyze_mongodb_issue failure_content with
  | MongoDBAnalyzer.MongoIssue _ specialized =>
      let info := JenkinsAnalyzer._extract_build_info sv failure_log_path failure_content in
      Return (JenkinsAnalyzer.Diagnosis
                (JenkinsAnalyzer.enhanced_analysis specialized failure_log_path info
                   failure_repos)
                failure_repos success_repos (Some failure_log_path)
                (Some success_log_path) JenkinsAnalyzer.mongodb_specialized
                (Some info) None)
  | MongoDBAnalyzer.NotMongo =>
      match llm sv with
      | None =>
          Return (JenkinsAnalyzer._local_analysis failure_content success_content
                    failure_repos success_repos)
      | Some invoke =>
          let info := JenkinsAnalyzer._extract_build_info sv failure_log_path failure_content in
          match invoke (JenkinsAnalyzer.analysis_prompt failure_log_path info
                          failure_repos success_repos failure_content success_content
                          (JenkinsAnalyzer._get_repository_context sv fs failure_repos
                             failure_content)) with
          | Some content =>
              Return (JenkinsAnalyzer.Diagnosis content failure_repos success_repos
                        (Some failure_log_path) (Some success_log_path)
                        JenkinsAnalyzer.azure_openai_with_context (Some info) (Some true))
          | None =>
              Return (JenkinsAnalyzer._local_analysis failure_content success_content
                        failure_repos success_repos)
          end
      end
  end.
Proof.
  intros Hf Hs. unfold JenkinsAnalyzer.analyze_failure. rewrite Hf. simpl.
  rewrite Hs. simpl.
  destruct (MongoDBAnalyzer.analyze_mongodb_issue failure_content); [|done].
  destruct (llm sv) as [invoke|]; [|done].
  by destruct (invoke _).
Qed.

(** C1.  Tier priority.  When the text of the failure log carries the DNS
    signature [getaddrinfo ENOTFOUND] (in any letter case, as the detector
    searches it), [analyze_failure] returns a result of kind
    [mongodb_specialized]; the result is the same whatever language model
    is configured, none included, so neither the generative nor the
    heuristic tier takes part.  The comparison log, when one is given and
    exists, is assumed to open. *)
Theorem specialized_tier_has_priority sv fs failure_log_path success_log_path text :
  fs !! failure_log_path = Some (FS.TextFile text) →
  occurs_ignoring_case "getaddrinfo ENOTFOUND" text →
  comparison_log_ok fs success_log_path →
  ∃ d,
    JenkinsAnalyzer.analyze_failure sv fs failure_log_path success_log_path = Return d ∧
    JenkinsAnalyzer.analysis_type d = JenkinsAnalyzer.mongodb_specialized ∧
    ∀ l, JenkinsAnalyzer.analyze_failure (with_llm l sv) fs failure_log_path
           success_log_path = Return d.
Proof.
  intros Hlog Hocc Hok.
  apply read_text in Hlog.
  destruct (load_success_log_returns _ _ Hok) as [success_content Hsucc].
  pose proof (dns_signature_detected _ Hocc) as Hissue.
  destruct (MongoDBAnalyzer.analyze_mongodb_issue text) as [|errors specialized] eqn:Hm;
    [discriminate|].
  eexists. split; [|split].
  - rewrite (analyze_failure_unfold _ _ _ _ _ _ Hlog Hsucc). simpl. rewrite Hm.
    reflexivity.
  - reflexivity.
  - intros l. rewrite (analyze_failure_unfold _ _ _ _ _ _ Hlog Hsucc). simpl.
    rewrite Hm. reflexivity.
Qed.

Lemma specialized_tier_has_priority_witness :
  ∃ d,
    JenkinsAnalyzer.analyze_failure Sample.online Sample.logs
      "logs/failure/build_12_20240131_101500.txt" None = Return d ∧
    JenkinsAnalyzer.analysis_type d = JenkinsAnalyzer.mongodb_specialized ∧
    ∀ l, JenkinsAnalyzer.analyze_failure (with_llm l Sample.online) Sample.logs
           "logs/failure/build_12_20240131_101500.txt" None = Return d.
Proof.
  apply (specialized_tier_has_priority Sample.online Sample.logs
           "logs/failure/build_12_20240131_101500.txt" None Sample.dns_log).
  - reflexivity.
  - exists "Error: ", "getaddrinfo ENOTFOUND",
      " mongodb-central-stg-headless.mongodb.svc.cluster.local".
    split; reflexivity.
  - intros p Hp. discriminate Hp.
Defined.

Lemma local_analysis_kind failure_content success_content failure_repos success_repos :
  MongoDBAnalyzer.analyze_mongodb_issue failure_content = MongoDBAnalyzer.NotMongo →
  let d := JenkinsAnalyzer._local_analysis failure_content success_content
             failure_repos success_repos in
  JenkinsAnalyzer.analysis_type d = JenkinsAnalyzer.local ∧
  JenkinsAnalyzer.analysis d ≠ "".
Proof.
  intros Hm. unfold JenkinsAnalyzer._local_analysis. rewrite Hm.
  assert (∀ tail, Py.unlines (JenkinsAnalyzer.header ++ tail) +:+ JenkinsAnalyzer.note ≠ "")
    as Htext.
  { intros tail. apply app_nonempty_l. simpl. by apply app_nonempty_l. }
  destruct (JenkinsAnalyzer.categorize failure_content); simpl; split;
    try done; apply Htext.
Qed.

(** C2, as the code has it.  With no language model configured, for every
    non-empty failure-log text that the specialized detector does not
    recognise (text of no known category included), [analyze_failure]
    returns, without raising, a result of kind [local] whose analysis text
    is not empty.  The comparison log, when one is given and exists, is
    assumed to open. *)
Theorem heuristic_tier_of_last_resort sv fs failure_log_path success_log_path text :
  llm sv = None →
  fs !! failure_log_path = Some (FS.TextFile text) →
  text ≠ "" →
  MongoDBAnalyzer.analyze_mongodb_issue text = MongoDBAnalyzer.NotMongo →
  comparison_log_ok fs success_log_path →
  ∃ d,
    JenkinsAnalyzer.analyze_failure sv fs failure_log_path success_log_path = Return d ∧
    JenkinsAnalyzer.analysis_type d = JenkinsAnalyzer.local ∧
    JenkinsAnalyzer.analysis d ≠ "".
Proof.
  intros Hllm Hlog _ Hm Hok.
  apply read_text in Hlog.
  destruct (load_success_log_returns _ _ Hok) as [success_content Hsucc].
  rewrite (analyze_failure_unfold _ _ _ _ _ _ Hlog Hsucc). simpl.
  rewrite Hm, Hllm. eexists. split; [reflexivity|].
  by apply local_analysis_kind.
Qed.

Lemma heuristic_tier_of_last_resort_witness :
  ∃ d,
    JenkinsAnalyzer.analyze_failure Sample.offline Sample.logs
      "logs/failure/build_13_20240230_101500.txt" (Some "logs/success/missing.txt")
      = Return d ∧
    JenkinsAnalyzer.analysis_type d = JenkinsAnalyzer.local ∧
    JenkinsAnalyzer.analysis d ≠ "".
Proof.
  apply (heuristic_tier_of_last_resort Sample.offline Sample.logs
           "logs/failure/build_13_20240230_101500.txt"
           (Some "logs/success/missing.txt") Sample.plain_log).
  - reflexivity.
  - reflexivity.
  - discriminate.
  - vm_compute. reflexivity.
  - intros p Hp _. injection Hp as <-. left. reflexivity.
Defined.

(** C2 as stated fails: a non-empty log with the DNS signature, analysed
    with no language model configured, is answered by the specialized tier,
    not by the local one. *)
Lemma heuristic_tier_preempted_by_detector :
  llm Sample.offline = None ∧
  Sample.logs !! "logs/failure/build_12_20240131_101500.txt"
    = Some (FS.TextFile Sample.dns_log) ∧
  Sample.dns_log ≠ "" ∧
  ∃ d,
    JenkinsAnalyzer.analyze_failure Sample.offline Sample.logs
      "logs/failure/build_12_20240131_101500.txt" None = Return d ∧
    JenkinsAnalyzer.analysis_type d = JenkinsAnalyzer.mongodb_specialized ∧
    JenkinsAnalyzer.analysis_type d ≠ JenkinsAnalyzer.local.
Proof.
  split; [reflexivity|]. split; [reflexivity|]. split; [discriminate|].
  eexists. split; [vm_compute; reflexivity|]. split; [reflexivity|discriminate].
Qed.

(** The two end-to-end scenarios of the specification: a DNS failure is
    diagnosed by the specialized tier, and a log without any signature by
    the general branch of the local tier. *)
Example dns_failure_scenario :
  ∃ d,
    JenkinsAnalyzer.analyze_failure Sample.online Sample.logs
      "logs/failure/build_12_20240131_101500.txt" None = Return d ∧
    Py.contains "**Root Cause**: DNS Resolution Failure" (JenkinsAnalyzer.analysis d)
      = true.
Proof. eexists. split; [vm_compute; reflexivity|]. by vm_compute. Qed.

Example unknown_failure_scenario :
  ∃ d,
    JenkinsAnalyzer.analyze_failure Sample.offline Sample.logs
      "logs/failure/build_13_20240230_101500.txt" None = Return d ∧
    JenkinsAnalyzer.categorize Sample.plain_log = JenkinsAnalyzer.GeneralFailure ∧
    Py.contains "**Root Cause**: General Build Failure" (JenkinsAnalyzer.analysis d)
      = true ∧
    Py.contains "**Priority**: High" (JenkinsAnalyzer.analysis d) = true.
Proof. eexists. split; [vm_compute; reflexivity|]. by vm_compute. Qed.

(** C3, as the code has it.  When the failure log cannot be read,
    [analyze_failure] raises the error of the read, whatever the services
    and the comparison log: it returns no result and no error field.  The
    error field is made by the caller: the batch route reports the log as
    failed, with an error. *)
Theorem unreadable_failure_log_raises sv fs failure_log_path success_log_path e :
  FS.read fs failure_log_path = Raise e →
  JenkinsAnalyzer.analyze_failure sv fs failure_log_path success_log_path = Raise e ∧
  ∃ error,
    Routes.analyze_batch_log sv fs failure_log_path
      = Routes.failed failure_log_path error.
Proof.
  intros Hread.
  assert (∀ sp, JenkinsAnalyzer.analyze_failure sv fs failure_log_path sp = Raise e)
    as Hraise.
  { intros sp. unfold JenkinsAnalyzer.analyze_failure. by rewrite Hread. }
  split; [apply Hraise|].
  unfold Routes.analyze_batch_log.
  destruct (FS.exists_ fs failure_log_path); [|by eexists].
  rewrite Hraise. by eexists.
Qed.

Lemma unreadable_failure_log_raises_witness :
  JenkinsAnalyzer.analyze_failure Sample.online Sample.logs "logs/success" None
    = Raise IsADirectoryError ∧
  ∃ error,
    Routes.analyze_batch_log Sample.online Sample.logs "logs/success"
      = Routes.failed "logs/success" error.
Proof.
  apply (unreadable_failure_log_raises Sample.online Sample.logs "logs/success" None
           IsADirectoryError).
  reflexivity.
Defined.

(** C3 as stated fails: on a missing failure log the call raises
    [FileNotFoundError] instead of returning. *)
Lemma missing_failure_log_raises :
  Sample.logs !! "logs/failure/missing.txt" = None ∧
  JenkinsAnalyzer.analyze_failure Sample.offline Sample.logs
    "logs/failure/missing.txt" None = Raise FileNotFoundError ∧
  returned (JenkinsAnalyzer.analyze_failure Sample.offline Sample.logs
              "logs/failure/missing.txt" None) = false.
Proof. split; [reflexivity|]. split; reflexivity. Qed.

(** ** The reference extractors *)

Lemma list_of_set_NoDup repos : NoDup (JenkinsAnalyzer.list_of_set repos).
Proof. unfold JenkinsAnalyzer.list_of_set. apply NoDup_elements. Qed.

Lemma list_of_set_elem repos repo :
  repo ∈ JenkinsAnalyzer.list_of_set repos ↔ repo ∈ repos.
Proof.
  unfold JenkinsAnalyzer.list_of_set.
  by rewrite elem_of_elements, elem_of_list_to_set.
Qed.

Lemma append_if_absent_elem valid_repos repo x :
  x ∈ Fetch.append_if_absent valid_repos repo ↔ x ∈ valid_repos ∨ x = repo.
Proof.
  unfold Fetch.append_if_absent. case_bool_decide as Hin.
  - split; [by left|]. intros [?| ->]; done.
  - rewrite elem_of_app, list_elem_of_singleton. done.
Qed.

Lemma append_if_absent_NoDup valid_repos repo :
  NoDup valid_repos → NoDup (Fetch.append_if_absent valid_repos repo).
Proof.
  intros Hnd. unfold Fetch.append_if_absent. case_bool_decide as Hin; [done|].
  apply NoDup_app. split_and!; [done| |apply NoDup_singleton].
  intros x Hx Hx'. apply list_elem_of_singleton in Hx' as ->. done.
Qed.

Lemma supplement_elem additional valid_repos x :
  x ∈ foldl Fetch.append_if_absent valid_repos additional
  ↔ x ∈ valid_repos ∨ x ∈ additional.
Proof.
  revert valid_repos. induction additional as [|repo additional IH];
    intros valid_repos; simpl.
  - rewrite elem_of_nil. tauto.
  - rewrite IH, append_if_absent_elem, elem_of_cons. tauto.
Qed.

Lemma supplement_NoDup additional valid_repos :
  NoDup valid_repos → NoDup (foldl Fetch.append_if_absent valid_repos additional).
Proof.
  revert valid_repos. induction additional as [|repo additional IH];
    intros valid_repos Hnd; simpl; [done|].
  by apply IH, append_if_absent_NoDup.
Qed.

Lemma valid_repo_shape repo : Fetch.valid_repo repo = true ↔ repository_shape repo.
Proof.
  unfold Fetch.valid_repo, repository_shape.
  rewrite !andb_true_iff, negb_true_iff, Nat.leb_le. tauto.
Qed.

Lemma additional_repos_shape repo :
  repo ∈ Fetch.additional_repos → repository_shape repo.
Proof.
  intros Hin. apply valid_repo_shape. unfold Fetch.additional_repos in Hin.
  repeat (apply elem_of_cons in Hin as [->|Hin]; [by vm_compute|]).
  by apply elem_of_nil in Hin.
Qed.

(** What [Fetch.extract_repos_from_log] returns for a log that reads. *)
Lemma fetch_extract_returns fs log_path content :
  FS.read fs log_path = Return content →
  Fetch.extract_repos_from_log fs log_path =
  foldl Fetch.append_if_absent
    (List.filter Fetch.valid_repo
       (JenkinsAnalyzer.list_of_set (Fetch.repo_candidates content)))
    Fetch.additional_repos.
Proof.
  intros Hread. unfold Fetch.extract_repos_from_log, Fetch.extract_repos_body.
  by rewrite Hread.
Qed.

Lemma fetch_extract_raises fs log_path e :
  FS.read fs log_path = Raise e → Fetch.extract_repos_from_log fs log_path = [].
Proof.
  intros Hread. unfold Fetch.extract_repos_from_log, Fetch.extract_repos_body.
  by rewrite Hread.
Qed.

Lemma analyzer_extract_raises fs log_path e :
  FS.read fs log_path = Raise e →
  JenkinsAnalyzer._extract_repos_from_log fs log_path = [].
Proof.
  intros Hread.
  unfold JenkinsAnalyzer._extract_repos_from_log, JenkinsAnalyzer._extract_repos_body.
  by rewrite Hread.
Qed.

Lemma fetch_extract_validated fs log_path :
  NoDup (Fetch.extract_repos_from_log fs log_path) ∧
  Forall repository_shape (Fetch.extract_repos_from_log fs log_path).
Proof.
  destruct (FS.read fs log_path) as [content|e] eqn:Hread.
  - rewrite (fetch_extract_returns _ _ _ Hread). split.
    + apply supplement_NoDup, NoDup_ListNoDup, List.NoDup_filter, NoDup_ListNoDup,
        list_of_set_NoDup.
    + apply Forall_forall. intros repo Hin.
      apply supplement_elem in Hin as [Hin|Hin].
      * apply list_elem_of_In, filter_In in Hin as [_ Hvalid].
        by apply valid_repo_shape.
      * by apply additional_repos_shape.
  - rewrite (fetch_extract_raises _ _ _ Hread). split; constructor.
Qed.

(** C5.  When the log cannot be read, the body of the [try] block of each
    extractor raises, and each extractor returns the empty list.  Nothing
    else in the bodies can raise, and the extractors themselves are total:
    they never raise. *)
Theorem extractors_return_empty_on_error fs log_path e :
  FS.read fs log_path = Raise e →
  Fetch.extract_repos_body fs log_path = Raise e ∧
  Fetch.extract_repos_from_log fs log_path = [] ∧
  JenkinsAnalyzer._extract_repos_body fs log_path = Raise e ∧
  JenkinsAnalyzer._extract_repos_from_log fs log_path = [].
Proof.
  intros Hread. split_and!.
  - unfold Fetch.extract_repos_body. by rewrite Hread.
  - by eapply fetch_extract_raises.
  - unfold JenkinsAnalyzer._extract_repos_body. by rewrite Hread.
  - by eapply analyzer_extract_raises.
Qed.

Lemma extractors_return_empty_on_error_witness :
  Fetch.extract_repos_body Sample.logs "logs/failure/missing.txt"
    = Raise FileNotFoundError ∧
  Fetch.extract_repos_from_log Sample.logs "logs/failure/missing.txt" = [] ∧
  JenkinsAnalyzer._extract_repos_body Sample.logs "logs/failure/missing.txt"
    = Raise FileNotFoundError ∧
  JenkinsAnalyzer._extract_repos_from_log Sample.logs "logs/failure/missing.txt" = [].
Proof.
  apply (extractors_return_empty_on_error Sample.logs "logs/failure/missing.txt"
           FileNotFoundError).
  reflexivity.
Defined.

(** C10.  For every log that reads, [Fetch.extract_repos_from_log] returns
    a list that contains the three supplemental repositories, so it is not
    empty, whatever the log mentions. *)
Theorem supplemental_repos_always_returned fs log_path content :
  fs !! log_path = Some (FS.TextFile content) →
  "https://github.com/Meesho/devops-lib.git"
    ∈ Fetch.extract_repos_from_log fs log_path ∧
  "https://github.com/Meesho/ringmaster-backend.git"
    ∈ Fetch.extract_repos_from_log fs log_path ∧
  "https://github.com/Meesho/ringmaster-frontend.git"
    ∈ Fetch.extract_repos_from_log fs log_path ∧
  Fetch.extract_repos_from_log fs log_path ≠ [].
Proof.
  intros Hlog. apply read_text in Hlog.
  rewrite (fetch_extract_returns _ _ _ Hlog).
  assert (∀ repo, repo ∈ Fetch.additional_repos →
            repo ∈ foldl Fetch.append_if_absent
                     (List.filter Fetch.valid_repo
                        (JenkinsAnalyzer.list_of_set (Fetch.repo_candidates content)))
                     Fetch.additional_repos) as Hall.
  { intros repo Hin. apply supplement_elem. by right. }
  unfold Fetch.additional_repos in Hall at 1.
  split_and!; try (apply Hall; set_solver).
  intros Hnil.
  specialize (Hall "https://github.com/Meesho/devops-lib.git").
  rewrite Hnil in Hall. eapply elem_of_nil, Hall. set_solver.
Qed.

Lemma supplemental_repos_always_returned_witness :
  "https://github.com/Meesho/devops-lib.git"
    ∈ Fetch.extract_repos_from_log Sample.logs
        "logs/failure/build_13_20240230_101500.txt" ∧
  "https://github.com/Meesho/ringmaster-backend.git"
    ∈ Fetch.extract_repos_from_log Sample.logs
        "logs/failure/build_13_20240230_101500.txt" ∧
  "https://github.com/Meesho/ringmaster-frontend.git"
    ∈ Fetch.extract_repos_from_log Sample.logs
        "logs/failure/build_13_20240230_101500.txt" ∧
  Fetch.extract_repos_from_log Sample.logs
    "logs/failure/build_13_20240230_101500.txt" ≠ [].
Proof.
  apply (supplemental_repos_always_returned Sample.logs
           "logs/failure/build_13_20240230_101500.txt" Sample.plain_log).
  reflexivity.
Defined.

(** ** Stripping *)

Lemma lstrip_head_ok s : head_ok (Py.lstrip s).
Proof.
  induction s as [|c s IH]; simpl; [done|].
  destruct (Py.is_space c) eqn:Hc; [done|]. exact Hc.
Qed.

Lemma lstrip_fixed s : head_ok s → Py.lstrip s = s.
Proof. destruct s as [|c s]; simpl; [done|]. by intros ->. Qed.

Lemma rstrip_head_ok s : head_ok s → head_ok (Py.rstrip s).
Proof.
  destruct s as [|c s]; simpl; [done|]. intros Hc.
  destruct (Py.rstrip s); [by rewrite Hc|done].
Qed.

Lemma rstrip_idempotent s : Py.rstrip (Py.rstrip s) = Py.rstrip s.
Proof.
  induction s as [|c s IH]; simpl; [done|].
  destruct (Py.rstrip s) as [|c' r] eqn:Hr.
  - destruct (Py.is_space c) eqn:Hc; simpl; [done|]. by rewrite Hc.
  - change (Py.rstrip (String c (String c' r)))
      with (match Py.rstrip (String c' r) with
            | "" => if Py.is_space c then "" else String c ""
            | r' => String c r'
            end).
    by rewrite IH.
Qed.

Lemma strip_idempotent s : Py.strip (Py.strip s) = Py.strip s.
Proof.
  unfold Py.strip.
  rewrite (lstrip_fixed (Py.rstrip (Py.lstrip s))).
  - apply rstrip_idempotent.
  - apply rstrip_head_ok, lstrip_head_ok.
Qed.

Lemma rstrip_no_space s : all_chars Re.not_space s = true → Py.rstrip s = s.
Proof.
  induction s as [|c s IH]; simpl; [done|].
  intros [Hc Hs]%andb_true_iff. rewrite (IH Hs).
  apply negb_true_iff in Hc. rewrite Hc. by destruct s.
Qed.

Lemma strip_no_space s : all_chars Re.not_space s = true → Py.strip s = s.
Proof.
  intros Hs. unfold Py.strip. rewrite lstrip_fixed; [by apply rstrip_no_space|].
  destruct s as [|c s]; simpl in *; [done|].
  apply andb_true_iff in Hs as [Hc _]. by apply negb_true_iff in Hc.
Qed.

Lemma all_chars_app P s t :
  all_chars P (s +:+ t) = all_chars P s && all_chars P t.
Proof.
  induction s as [|c s IH]; [done|]. rewrite app_cons. simpl.
  by rewrite IH, andb_assoc.
Qed.

Lemma all_chars_mono (P Q : ascii → bool) s :
  (∀ c, P c = true → Q c = true) → all_chars P s = true → all_chars Q s = true.
Proof.
  intros HPQ. induction s as [|c s IH]; simpl; [done|].
  intros [Hc Hs]%andb_true_iff. by rewrite (HPQ _ Hc), IH.
Qed.

(** ** What a match consumes *)

Lemma times_consumes n cls k s f :
  Re.times n cls k s = Some f →
  ∃ m s', s = m +:+ s' ∧ all_chars cls m = true ∧ k s' = Some f.
Proof.
  revert s. induction n as [|n IH]; intros s; simpl.
  - intros Hk. by exists "", s.
  - destruct s as [|c s]; [done|]. destruct (cls c) eqn:Hc; [|done].
    intros (m & s' & -> & Hm & Hk)%IH.
    exists (String c m), s'. simpl. by rewrite Hc, Hm.
Qed.

Lemma star_consumes cls k s f :
  Re.star cls k s = Some f →
  ∃ m s', s = m +:+ s' ∧ all_chars cls m = true ∧ k s' = Some f.
Proof.
  induction s as [|c s IH]; simpl.
  - intros Hk. by exists "", "".
  - destruct (cls c) eqn:Hc; [|intros Hk; by exists "", (String c s)].
    destruct (Re.star cls k s) as [f'|] eqn:Hstar.
    + intros [= ->]. destruct (IH eq_refl) as (m & s' & -> & Hm & Hk).
      exists (String c m), s'. simpl. by rewrite Hc, Hm.
    + intros Hk. by exists "", (String c s).
Qed.

Lemma match_here_atom cls q p s :
  Re.match_here (Re.Atom cls q :: p) s =
  match q with
  | Re.One => Re.times 1 cls (Re.match_here p) s
  | Re.Star => Re.star cls (Re.match_here p) s
  | Re.Plus => Re.times 1 cls (Re.star cls (Re.match_here p)) s
  | Re.Times n => Re.times n cls (Re.match_here p) s
  end.
Proof. by destruct q. Qed.

Lemma match_atoms_consumes P p tail s f :
  atoms_within P p →
  Re.match_here (p ++ tail) s = Some f →
  ∃ m s', s = m +:+ s' ∧ all_chars P m = true ∧ Re.match_here tail s' = Some f.
Proof.
  revert s. induction p as [|[cls q| |] p IH]; intros s Hp; simpl in Hp; try done.
  - intros Hm. by exists "", s.
  - destruct Hp as [Hcls Hp].
    assert (∀ s0, Re.match_here (p ++ tail) s0 = Some f →
              ∃ m s', s0 = m +:+ s' ∧ all_chars P m = true ∧
                      Re.match_here tail s' = Some f) as Hrest by (intros; by apply IH).
    assert (∀ m1 s1,
              all_chars cls m1 = true →
              Re.match_here (p ++ tail) s1 = Some f →
              ∃ m s', m1 +:+ s1 = m +:+ s' ∧ all_chars P m = true ∧
                      Re.match_here tail s' = Some f) as Hjoin.
    { intros m1 s1 Hm1 (m & s' & -> & Hm & Hk)%Hrest.
      exists (m1 +:+ m), s'. rewrite app_assoc_string, all_chars_app, Hm.
      by rewrite (all_chars_mono cls P m1 Hcls Hm1). }
    change ((Re.Atom cls q :: p) ++ tail) with (Re.Atom cls q :: (p ++ tail)).
    rewrite match_here_atom. destruct q as [| | |n].
    + intros (m1 & s1 & -> & Hm1 & Hk)%times_consumes. by apply Hjoin.
    + intros (m1 & s1 & -> & Hm1 & Hk)%star_consumes. by apply Hjoin.
    + intros (m1 & s1 & -> & Hm1 & Hk)%times_consumes.
      apply star_consumes in Hk as (m2 & s2 & -> & Hm2 & Hk).
      rewrite <- app_assoc_string. apply Hjoin; [|done].
      by rewrite all_chars_app, Hm1, Hm2.
    + intros (m1 & s1 & -> & Hm1 & Hk)%times_consumes. by apply Hjoin.
Qed.

Lemma between_app m s' : Re.between (m +:+ s') s' = m.
Proof. apply take_app_length. Qed.

(** The text reported for a pattern without group lies in the classes of
    the pattern. *)
Lemma plain_match_within P p s f :
  atoms_within P p →
  Re.match_here p s = Some f → all_chars P (Re.result_text s f) = true.
Proof.
  intros Hp Hm. rewrite <- (app_nil_r p) in Hm.
  apply (match_atoms_consumes P) in Hm as (m & s' & -> & Hall & Hk); [|done].
  injection Hk as <-. unfold Re.result_text. simpl. by rewrite between_app.
Qed.

(** The text reported for a pattern that ends with a group lies in the
    classes of the group. *)
Lemma group_match_within P prefix g s f :
  atoms_within (λ _, true) prefix → atoms_within P g →
  Re.match_here (prefix ++ Re.group g) s = Some f →
  all_chars P (Re.result_text s f) = true.
Proof.
  intros Hprefix Hg Hm.
  apply (match_atoms_consumes (λ _, true)) in Hm as (m0 & s1 & -> & _ & Hk); [|done].
  unfold Re.group in Hk. simpl in Hk.
  destruct (Re.match_here (g ++ [Re.Close]) s1) as [f1|] eqn:Hg1; [|done].
  injection Hk as <-.
  apply (match_atoms_consumes P) in Hg1 as (m & s2 & -> & Hall & Hk); [|done].
  simpl in Hk. injection Hk as <-.
  unfold Re.result_text. simpl. by rewrite between_app.
Qed.

Lemma findall_from_elem p skip s x :
  x ∈ Re.findall_from p skip s →
  ∃ s' f, Re.match_here p s' = Some f ∧ x = Re.result_text s' f.
Proof.
  revert skip. induction s as [|c s IH]; intros skip.
  - destruct skip; simpl; [|by intros ?%elem_of_nil].
    destruct (Re.match_here p "") as [f|] eqn:Hm; [|by intros ?%elem_of_nil].
    intros [->|?%elem_of_nil]%elem_of_cons; [|done]. eauto.
  - destruct skip; simpl; [|apply IH].
    destruct (Re.match_here p (String c s)) as [f|] eqn:Hm; [|apply IH].
    intros [->|Hin]%elem_of_cons; [eauto|]. by eapply IH.
Qed.

Lemma lit_within P literal :
  all_chars P literal = true → atoms_within P (Re.lit literal).
Proof.
  induction literal as [|a literal IH]; simpl; [done|].
  intros [Ha Hl]%andb_true_iff. split; [|by apply IH].
  intros c Hc. unfold Re.exactly in Hc. by apply Ascii.eqb_eq in Hc as ->.
Qed.

Lemma atoms_within_app P p q :
  atoms_within P p → atoms_within P q → atoms_within P (p ++ q).
Proof.
  induction p as [|[cls r| |] p IH]; simpl; try done.
  intros [Hcls Hp] Hq. split; [done|]. by apply IH.
Qed.

(** ** Deduplication in [JenkinsAnalyzer._extract_repos_from_log] *)

Lemma stripped_nonempty_elem repos x :
  x ∈ JenkinsAnalyzer.stripped_nonempty repos ↔
  ∃ repo, repo ∈ repos ∧ x = Py.strip repo ∧ Py.truthy x = true.
Proof.
  unfold JenkinsAnalyzer.stripped_nonempty. rewrite list_elem_of_omap.
  split.
  - intros (repo & Hin & Hx). exists repo. split; [done|].
    destruct (Py.truthy (Py.strip repo)) eqn:Ht; [|done].
    injection Hx as <-. done.
  - intros (repo & Hin & -> & Ht). exists repo. split; [done|]. by rewrite Ht.
Qed.

Lemma stripped_nonempty_NoDup repos :
  NoDup repos → (∀ x, x ∈ repos → Py.strip x = x) →
  NoDup (JenkinsAnalyzer.stripped_nonempty repos).
Proof.
  induction 1 as [|x repos Hx Hnd IH]; intros Hfixed; [constructor|].
  assert (NoDup (JenkinsAnalyzer.stripped_nonempty repos)) as IH'.
  { apply IH. intros y Hy. apply Hfixed. by right. }
  unfold JenkinsAnalyzer.stripped_nonempty in *. simpl.
  rewrite (Hfixed x) by left.
  destruct (Py.truthy x); [|done].
  apply NoDup_cons. split; [|done].
  intros (repo & Hin & Hrepo & _)%stripped_nonempty_elem.
  rewrite (Hfixed repo) in Hrepo by (by right). by subst.
Qed.

Lemma analyzer_github_pattern_within :
  atoms_within Re.not_space JenkinsAnalyzer.github_pattern.
Proof.
  unfold JenkinsAnalyzer.github_pattern.
  repeat apply atoms_within_app; try (by apply lit_within); by split.
Qed.

Lemma analyzer_repo_pattern_within :
  atoms_within Re.not_space JenkinsAnalyzer.repo_pattern.
Proof.
  unfold JenkinsAnalyzer.repo_pattern.
  repeat apply atoms_within_app; try (by apply lit_within); by split.
Qed.

Lemma findall_plain_within P p s x :
  atoms_within P p → x ∈ Re.findall p s → all_chars P x = true.
Proof.
  intros Hp (s' & f & Hm & ->)%findall_from_elem. by eapply plain_match_within.
Qed.

Lemma findall_group_within P prefix g s x :
  atoms_within (λ _, true) prefix → atoms_within P g →
  x ∈ Re.findall (prefix ++ Re.group g) s → all_chars P x = true.
Proof.
  intros Hprefix Hg (s' & f & Hm & ->)%findall_from_elem.
  by eapply group_match_within.
Qed.

Lemma analyzer_candidates_stripped content x :
  x ∈ JenkinsAnalyzer.repo_candidates content → Py.strip x = x.
Proof.
  unfold JenkinsAnalyzer.repo_candidates.
  rewrite !elem_of_app. intros [Hfirst|[Hgithub|[Hrepo|Hcloning]]].
  - destruct (_ || _); [|by apply elem_of_nil in Hfirst].
    apply stripped_nonempty_elem in Hfirst as (repo & _ & -> & _).
    apply strip_idempotent.
  - eapply strip_no_space, findall_plain_within, Hgithub.
    apply analyzer_github_pattern_within.
  - eapply strip_no_space, findall_plain_within, Hrepo.
    apply analyzer_repo_pattern_within.
  - eapply strip_no_space, findall_group_within, Hcloning.
    + by apply lit_within.
    + apply atoms_within_app; [by apply lit_within|by split].
Qed.

Lemma analyzer_extract_NoDup fs log_path :
  NoDup (JenkinsAnalyzer._extract_repos_from_log fs log_path).
Proof.
  unfold JenkinsAnalyzer._extract_repos_from_log, JenkinsAnalyzer._extract_repos_body.
  destruct (FS.read fs log_path) as [content|e]; simpl; [|constructor].
  apply stripped_nonempty_NoDup; [apply list_of_set_NoDup|].
  intros x Hx. apply (proj1 (list_of_set_elem _ _)) in Hx.
  exact (analyzer_candidates_stripped content x Hx).
Qed.

(** C4, as the code has it.  For every log, [Fetch.extract_repos_from_log]
    returns a list without duplicates in which every reference has the
    validated shape: it starts with [https://github.com/], ends with
    [.git], has at least five segments between slashes and does not
    contain [api.git].  [JenkinsAnalyzer._extract_repos_from_log] returns a
    list without duplicates too, but checks no shape. *)
Theorem extractors_deduplicate_and_fetch_validates fs log_path :
  NoDup (Fetch.extract_repos_from_log fs log_path) ∧
  Forall repository_shape (Fetch.extract_repos_from_log fs log_path) ∧
  NoDup (JenkinsAnalyzer._extract_repos_from_log fs log_path).
Proof.
  destruct (fetch_extract_validated fs log_path) as [Hnd Hshape].
  split_and!; [done|done|apply analyzer_extract_NoDup].
Qed.

(** C4 as stated fails for the extractor of [analyze_failure]: a first line
    [http://foo] is returned as it is, and has none of the shape. *)
Lemma analyzer_extractor_returns_unvalidated :
  JenkinsAnalyzer._extract_repos_from_log Sample.logs "logs/failure/frontend.txt"
    = ["http://foo"] ∧
  Py.startswith "https://github.com/" "http://foo" = false ∧
  Py.endswith ".git" "http://foo" = false ∧
  length (Py.split "/" "http://foo") = 3 ∧
  ¬ repository_shape "http://foo".
Proof.
  split_and!; try by vm_compute.
  intros (Hstart & _). by vm_compute in Hstart.
Qed.

(** ** Cloning *)

Lemma run_git_clone_fetched git url dir w :
  fetched (Fetch.run_git_clone git url dir w).2 = fetched w ++ [(url, dir)].
Proof.
  unfold Fetch.run_git_clone. by destruct (git_clone git url dir (files w)).
Qed.

Lemma run_git_clone_creates git url dir w err :
  (Fetch.run_git_clone git url dir w).1 = Exited 0 err →
  FS.exists_ (files (Fetch.run_git_clone git url dir w).2) dir = true.
Proof.
  unfold Fetch.run_git_clone.
  destruct (git_clone git url dir (files w)) as [result fs'] eqn:Hgit. simpl.
  intros ->. apply bool_decide_eq_true. by eapply git_clone_creates.
Qed.

Lemma clone_repository_existing git url dir w :
  FS.exists_ (files w) dir = true → Fetch.clone_repository git url dir w = (true, w).
Proof. intros Hex. unfold Fetch.clone_repository. by rewrite Hex. Qed.

Lemma clone_repository_success git url dir w :
  (Fetch.clone_repository git url dir w).1 = true →
  FS.exists_ (files (Fetch.clone_repository git url dir w).2) dir = true ∧
  length (fetched (Fetch.clone_repository git url dir w).2) ≤ S (length (fetched w)).
Proof.
  unfold Fetch.clone_repository.
  destruct (FS.exists_ (files w) dir) eqn:Hex; [simpl; split; [done|lia]|].
  pose proof (run_git_clone_fetched git url dir w) as Hfetched.
  pose proof (run_git_clone_creates git url dir w) as Hcreates.
  destruct (Fetch.run_git_clone git url dir w) as [result w']. simpl in *.
  destruct result as [returncode err| |]; simpl; try done.
  intros Hzero%bool_decide_eq_true. subst returncode. split; [by eapply Hcreates|].
  rewrite Hfetched, length_app. simpl. lia.
Qed.

Lemma ensure_repo_dir_fetched w :
  fetched (VectorIndexer.ensure_repo_dir w) = fetched w.
Proof. unfold VectorIndexer.ensure_repo_dir. by destruct (FS.exists_ _ _). Qed.

Lemma ensure_repo_dir_keeps w path :
  FS.exists_ (files w) path = true →
  FS.exists_ (files (VectorIndexer.ensure_repo_dir w)) path = true.
Proof.
  unfold VectorIndexer.ensure_repo_dir.
  destruct (FS.exists_ (files w) VectorIndexer.REPO_DIR); [done|]. simpl.
  unfold FS.exists_. rewrite !bool_decide_eq_true, lookup_insert_is_Some.
  intros Hsome. destruct (decide (VectorIndexer.REPO_DIR = path)); [by left|by right].
Qed.

Lemma clone_repo_existing git url w :
  FS.exists_ (files w) (VectorIndexer.repo_path url) = true →
  (VectorIndexer.clone_repo git url w).1 = Return (VectorIndexer.repo_path url) ∧
  fetched (VectorIndexer.clone_repo git url w).2 = fetched w.
Proof.
  intros Hex%ensure_repo_dir_keeps. unfold VectorIndexer.clone_repo.
  rewrite Hex. simpl. split; [done|apply ensure_repo_dir_fetched].
Qed.

Lemma clone_repo_success git url w :
  returned (VectorIndexer.clone_repo git url w).1 = true →
  (VectorIndexer.clone_repo git url w).1 = Return (VectorIndexer.repo_path url) ∧
  FS.exists_ (files (VectorIndexer.clone_repo git url w).2)
    (VectorIndexer.repo_path url) = true ∧
  length (fetched (VectorIndexer.clone_repo git url w).2) ≤ S (length (fetched w)).
Proof.
  unfold VectorIndexer.clone_repo.
  pose proof (ensure_repo_dir_fetched w) as Hsame.
  destruct (FS.exists_ (files (VectorIndexer.ensure_repo_dir w)) _) eqn:Hex.
  { simpl. intros _. rewrite Hsame. split_and!; [done|done|lia]. }
  pose proof (run_git_clone_fetched git url (VectorIndexer.repo_path url)
                (VectorIndexer.ensure_repo_dir w)) as Hfetched.
  pose proof (run_git_clone_creates git url (VectorIndexer.repo_path url)
                (VectorIndexer.ensure_repo_dir w)) as Hcreates.
  destruct (Fetch.run_git_clone _ _ _ _) as [result w']. simpl in *.
  destruct result as [returncode err| |]; simpl; try done.
  case_bool_decide as Hzero; simpl; [|done]. subst returncode. intros _.
  split_and!; [done|by eapply Hcreates|].
  rewrite Hfetched, length_app, Hsame. simpl. lia.
Qed.

(** C6, as the code has it.  When the first of two calls with the same
    URL and target reports success, the second call runs no [git clone],
    leaves the state as it is and reports success too, so the two calls
    together fetch at most once; this holds for [clone_repository] and,
    with success read as returning the path, for [clone_repo]. *)
Theorem second_clone_after_success_is_a_no_op git url target_dir w :
  let first := Fetch.clone_repository git url target_dir w in
  let second := Fetch.clone_repository git url target_dir first.2 in
  let first' := VectorIndexer.clone_repo git url w in
  let second' := VectorIndexer.clone_repo git url first'.2 in
  (first.1 = true →
     second = (true, first.2) ∧
     length (fetched second.2) ≤ S (length (fetched w))) ∧
  (returned first'.1 = true →
     second'.1 = first'.1 ∧
     fetched second'.2 = fetched first'.2 ∧
     length (fetched second'.2) ≤ S (length (fetched w))).
Proof.
  simpl. split.
  - intros (Hex & Hlen)%clone_repository_success.
    rewrite (clone_repository_existing _ _ _ _ Hex). done.
  - intros (Hret & Hex & Hlen)%clone_repo_success.
    destruct (clone_repo_existing git url _ Hex) as [Hret' Hsame].
    rewrite Hret', Hsame, Hret. done.
Qed.

(** C6 as stated fails: when the first clone fails and leaves no target,
    the second call clones again, so [git clone] runs twice. *)
Lemma failed_clone_is_fetched_again :
  (Fetch.clone_repository Sample.failing_git "https://github.com/a/b.git"
     "cloned_repos/b" (World ∅ [])).1 = false ∧
  fetched
    (Fetch.clone_repository Sample.failing_git "https://github.com/a/b.git"
       "cloned_repos/b"
       (Fetch.clone_repository Sample.failing_git "https://github.com/a/b.git"
          "cloned_repos/b" (World ∅ [])).2).2
  = [ ("https://github.com/a/b.git", "cloned_repos/b");
      ("https://github.com/a/b.git", "cloned_repos/b") ].
Proof. split; reflexivity. Qed.

Lemma second_clone_after_success_is_a_no_op_witness :
  Fetch.clone_repository Sample.working_git "https://github.com/a/b.git"
    "cloned_repos/b"
    (Fetch.clone_repository Sample.working_git "https://github.com/a/b.git"
       "cloned_repos/b" (World ∅ [])).2
  = (true,
     (Fetch.clone_repository Sample.working_git "https://github.com/a/b.git"
        "cloned_repos/b" (World ∅ [])).2) ∧
  (VectorIndexer.clone_repo Sample.working_git "https://github.com/a/b.git"
     (VectorIndexer.clone_repo Sample.working_git "https://github.com/a/b.git"
        (World ∅ [])).2).1
  = Return "cloned_repos/b".
Proof.
  destruct (second_clone_after_success_is_a_no_op Sample.working_git
              "https://github.com/a/b.git" "cloned_repos/b" (World ∅ []))
    as [Hfirst Hsecond].
  split.
  - apply Hfirst. reflexivity.
  - destruct Hsecond as (-> & _); reflexivity.
Defined.

(** ** The index store *)

Lemma chunk_and_store_saved be directory_path vectorstore_path extra store :
  collect_documents_nonempty be directory_path extra = true →
  embed_and_save be (VectorIndexer.collect_documents be directory_path extra)
    vectorstore_path = true →
  VectorIndexer.chunk_and_store_to_vector_db be directory_path vectorstore_path
    extra store
  = <[vectorstore_path := VectorIndexer.collect_documents be directory_path extra]>
      store.
Proof.
  unfold collect_documents_nonempty, VectorIndexer.chunk_and_store_to_vector_db.
  destruct (VectorIndexer.collect_documents be directory_path extra); [done|].
  by intros _ ->.
Qed.

Lemma chunk_and_store_skipped be directory_path vectorstore_path extra store :
  collect_documents_nonempty be directory_path extra = false ∨
  embed_and_save be (VectorIndexer.collect_documents be directory_path extra)
    vectorstore_path = false →
  VectorIndexer.chunk_and_store_to_vector_db be directory_path vectorstore_path
    extra store = store.
Proof.
  unfold collect_documents_nonempty, VectorIndexer.chunk_and_store_to_vector_db.
  destruct (VectorIndexer.collect_documents be directory_path extra); [done|].
  by intros [?| ->].
Qed.

(** C7, as the code has it.  [chunk_and_store_to_vector_db] never looks
    whether an index exists at the path.  When the directory yields at
    least one chunk and embedding and saving succeed, the index at the path
    is the new list of chunks, whatever was stored there; when no chunk is
    found or the embedding fails, the store is left as it was; the indices
    at other paths are never touched. *)
Theorem build_rebuilds_the_index be directory_path vectorstore_path extra store :
  let documents := VectorIndexer.collect_documents be directory_path extra in
  let store' :=
    VectorIndexer.chunk_and_store_to_vector_db be directory_path vectorstore_path
      extra store in
  (collect_documents_nonempty be directory_path extra = true →
   embed_and_save be documents vectorstore_path = true →
   store' !! vectorstore_path = Some documents) ∧
  (collect_documents_nonempty be directory_path extra = false ∨
   embed_and_save be documents vectorstore_path = false →
   store' = store) ∧
  (∀ other, other ≠ vectorstore_path → store' !! other = store !! other).
Proof.
  simpl. split_and!.
  - intros Hne Hsave. rewrite chunk_and_store_saved by done.
    apply lookup_insert_eq.
  - apply chunk_and_store_skipped.
  - intros other Hother.
    destruct (collect_documents_nonempty be directory_path extra) eqn:Hne;
      [|by rewrite chunk_and_store_skipped by (by left)].
    destruct (embed_and_save be
                (VectorIndexer.collect_documents be directory_path extra)
                vectorstore_path) eqn:Hsave;
      [|by rewrite chunk_and_store_skipped by (by right)].
    rewrite chunk_and_store_saved by done. by apply lookup_insert_ne.
Qed.

Lemma build_rebuilds_the_index_witness :
  VectorIndexer.chunk_and_store_to_vector_db Sample.one_file "cloned_repos/app"
    "vectorstore/app_vectorstore" None ∅ !! "vectorstore/app_vectorstore"
  = Some [Sample.new_chunk].
Proof.
  destruct (build_rebuilds_the_index Sample.one_file "cloned_repos/app"
              "vectorstore/app_vectorstore" None ∅) as (Hsaved & _ & _).
  apply Hsaved; reflexivity.
Defined.

(** C7 as stated fails: a build over a path that already holds an index
    replaces the stored chunks. *)
Lemma existing_index_is_overwritten :
  ({[ "vectorstore/app_vectorstore" := [Sample.old_chunk] ]}
     : gmap string (list document)) !! "vectorstore/app_vectorstore"
  = Some [Sample.old_chunk] ∧
  VectorIndexer.chunk_and_store_to_vector_db Sample.one_file "cloned_repos/app"
    "vectorstore/app_vectorstore" None
    {[ "vectorstore/app_vectorstore" := [Sample.old_chunk] ]}
    !! "vectorstore/app_vectorstore"
  = Some [Sample.new_chunk] ∧
  Sample.new_chunk ≠ Sample.old_chunk.
Proof. split_and!; [reflexivity|reflexivity|discriminate]. Qed.

(** ** Build metadata *)

Lemma search_group1_none p s : Re.search p s = None → Re.search_group1 p s = None.
Proof. unfold Re.search_group1. by intros ->. Qed.

(** C9.  [_extract_build_info] is a total function of the file name and the
    log text: it returns a record for every input.  A field whose pattern
    matches nowhere is absent from the record, and a time stamp that
    matches the file-name pattern but that [strptime] (or [strftime])
    rejects gives the build time ['Unknown']. *)
Theorem build_info_degrades_field_by_field sv log_path log_content :
  let info := JenkinsAnalyzer._extract_build_info sv log_path log_content in
  let filename := Py.basename log_path in
  (Re.search JenkinsAnalyzer.build_pattern filename = None →
   JenkinsAnalyzer.build_number info = None) ∧
  (Re.search JenkinsAnalyzer.time_pattern filename = None →
   JenkinsAnalyzer.build_time info = None) ∧
  (Re.search JenkinsAnalyzer.user_pattern log_content = None →
   JenkinsAnalyzer.started_by info = None) ∧
  (Re.search JenkinsAnalyzer.status_pattern log_content = None →
   JenkinsAnalyzer.status info = None) ∧
  (∀ timestamp,
     Re.search_group1 JenkinsAnalyzer.time_pattern filename = Some timestamp →
     strptime sv timestamp "%Y%m%d_%H%M%S" = None ∨
     (∃ dt, strptime sv timestamp "%Y%m%d_%H%M%S" = Some dt ∧
            strftime sv dt "%Y-%m-%d %H:%M:%S" = None) →
     JenkinsAnalyzer.build_time info = Some "Unknown").
Proof.
  simpl. unfold JenkinsAnalyzer._extract_build_info. simpl.
  split_and!; try (intros Hnone; by rewrite (search_group1_none _ _ Hnone)).
  intros timestamp -> Hfail. simpl. f_equal.
  unfold JenkinsAnalyzer.format_build_time.
  destruct Hfail as [->|(dt & -> & ->)]; done.
Qed.

Lemma build_info_degrades_field_by_field_witness :
  JenkinsAnalyzer._extract_build_info Sample.offline
    "logs/failure/build_13_20240230_101500.txt" Sample.plain_log
  = JenkinsAnalyzer.BuildInfo (Some "13") (Some "Unknown") None None.
Proof.
  destruct (build_info_degrades_field_by_field Sample.offline
              "logs/failure/build_13_20240230_101500.txt" Sample.plain_log)
    as (_ & _ & Huser & Hstatus & Htime).
  specialize (Huser eq_refl). specialize (Hstatus eq_refl).
  specialize (Htime "20240230_101500" eq_refl (or_introl eq_refl)).
  destruct (JenkinsAnalyzer._extract_build_info Sample.offline
              "logs/failure/build_13_20240230_101500.txt" Sample.plain_log)
    as [number time user status] eqn:Hinfo.
  simpl in *. subst. f_equal.
  apply (f_equal JenkinsAnalyzer.build_number) in Hinfo. exact (eq_sym Hinfo).
Defined.

(** A file name without build number or time stamp, and a time stamp that
    parses. *)
Example build_info_of_plain_name :
  JenkinsAnalyzer._extract_build_info Sample.offline "logs/failure/frontend.txt"
    "Started by user alice"
  = JenkinsAnalyzer.BuildInfo None None (Some "alice") None.
Proof. reflexivity. Qed.

Example build_info_of_dated_name :
  JenkinsAnalyzer._extract_build_info Sample.offline
    "logs/failure/build_12_20240131_101500.txt" "Finished: FAILURE"
  = JenkinsAnalyzer.BuildInfo (Some "12") (Some "2024-01-31 10:15:00") None
      (Some "FAILURE").
Proof. reflexivity. Qed.

(** * Further properties of the code *)

(** ** Substrings *)

Lemma startswith_occurs p s : Py.startswith p s = true ↔ ∃ t, s = p +:+ t.
Proof.
  revert s. induction p as [|a p IH]; intros s; simpl.
  - split; [intros _; by exists s|done].
  - destruct s as [|b s]; [split; [done|by intros [t Ht]]|].
    rewrite andb_true_iff, Ascii.eqb_eq, IH. split.
    + intros [-> [t ->]]. by exists t.
    + intros [t Ht]. rewrite app_cons in Ht. injection Ht as -> ->. eauto.
Qed.

Lemma contains_occurs needle s : Py.contains needle s = true ↔ occurs needle s.
Proof.
  unfold occurs. induction s as [|c s IH].
  - simpl. rewrite orb_false_r, startswith_occurs. split.
    + intros [t Ht]. by exists "", t.
    + intros ([|c before] & after & Ht); [by exists after|discriminate].
  - cbn [Py.contains]. rewrite orb_true_iff, IH, startswith_occurs. split.
    + intros [[t ->]|(before & after & ->)]; [by exists "", t|].
      by exists (String c before), after.
    + intros ([|c' before] & after & Ht); [left; by exists after|].
      rewrite app_cons in Ht. injection Ht as -> ->. right. eauto.
Qed.

Lemma occurs_trans a b s : occurs a b → occurs b s → occurs a s.
Proof.
  intros (b1 & b2 & ->) (s1 & s2 & ->).
  exists (s1 +:+ b1), (b2 +:+ s2). by rewrite !app_assoc_string.
Qed.

Lemma occurs_app_l needle s t : occurs needle s → occurs needle (s +:+ t).
Proof.
  intros (before & after & ->). exists before, (after +:+ t).
  by rewrite !app_assoc_string.
Qed.

Lemma occurs_ignoring_case_of_occurs needle text :
  occurs needle text → occurs_ignoring_case needle text.
Proof. intros (before & after & ->). by exists before, needle, after. Qed.

Lemma length_take n s : String.length (Py.take n s) ≤ n.
Proof.
  revert s. induction n as [|n IH]; intros [|c s]; simpl; try lia.
  specialize (IH s). lia.
Qed.

(** ** The tiers, one against the other *)

Lemma load_success_log_raises fs success_log_path e :
  JenkinsAnalyzer.load_success_log fs success_log_path = Raise e →
  ¬ comparison_log_ok fs success_log_path.
Proof.
  unfold JenkinsAnalyzer.load_success_log, JenkinsAnalyzer.given.
  destruct success_log_path as [p|]; [|done].
  destruct p as [|c p]; [done|]. simpl.
  unfold FS.exists_. case_bool_decide as Hex; [|done].
  intros Hread Hok. destruct (Hok _ eq_refl) as [Hnone|[content Htext]]; [done| |].
  - rewrite Hnone in Hex. by destruct Hex.
  - by rewrite (read_text _ _ _ Htext) in Hread.
Qed.

Lemma read_returns fs path content :
  FS.read fs path = Return content → fs !! path = Some (FS.TextFile content).
Proof.
  unfold FS.read. destruct (fs !! path) as [[text| |]|]; try done.
  by intros [= ->].
Qed.

Lemma analyze_failure_returns sv fs failure_log_path success_log_path
    failure_content success_content :
  FS.read fs failure_log_path = Return failure_content →
  JenkinsAnalyzer.load_success_log fs success_log_path = Return success_content →
  returned (JenkinsAnalyzer.analyze_failure sv fs failure_log_path success_log_path)
    = true.
Proof.
  intros Hf Hs. rewrite (analyze_failure_unfold _ _ _ _ _ _ Hf Hs). simpl.
  destruct (MongoDBAnalyzer.analyze_mongodb_issue failure_content); [|done].
  destruct (llm sv) as [invoke|]; [|done].
  by destruct (invoke _).
Qed.

(** [analyze_failure] raises in two cases only: the failure log does not
    read, or a comparison log is given, exists and does not read.  In every
    other case it returns a diagnosis, whatever the text of the logs and
    whatever the services do. *)
Theorem analyze_failure_returns_iff_logs_read sv fs failure_log_path success_log_path :
  returned (JenkinsAnalyzer.analyze_failure sv fs failure_log_path success_log_path)
    = true
  ↔ readable fs failure_log_path ∧ comparison_log_ok fs success_log_path.
Proof.
  split.
  - intros Hret.
    destruct (FS.read fs failure_log_path) as [failure_content|e] eqn:Hf.
    2: { unfold JenkinsAnalyzer.analyze_failure in Hret. by rewrite Hf in Hret. }
    split; [exists failure_content; by apply read_returns|].
    destruct (JenkinsAnalyzer.load_success_log fs success_log_path)
      as [success_content|e] eqn:Hs.
    + intros p -> Hp. unfold JenkinsAnalyzer.load_success_log in Hs.
      destruct p as [|c p]; [done|]. simpl in Hs. unfold FS.exists_ in Hs.
      case_bool_decide as Hex.
      * right. exists success_content. by apply read_returns.
      * left. destruct (fs !! String c p) eqn:Hlook; [|done].
        destruct Hex. by eexists.
    + unfold JenkinsAnalyzer.analyze_failure in Hret. rewrite Hf in Hret.
      simpl in Hret. by rewrite Hs in Hret.
  - intros [[failure_content Hf%read_text] Hok].
    destruct (load_success_log_returns _ _ Hok) as [success_content Hs].
    by eapply analyze_failure_returns.
Qed.

(** A language model whose call raises is the same as no language model:
    the result is the one of the local tier, for every log and every file
    system (a raised read included). *)
Theorem failing_llm_is_no_llm sv fs failure_log_path success_log_path invoke :
  (∀ p, invoke p = None) →
  JenkinsAnalyzer.analyze_failure (with_llm (Some invoke) sv) fs failure_log_path
    success_log_path
  = JenkinsAnalyzer.analyze_failure (with_llm None sv) fs failure_log_path
      success_log_path.
Proof.
  intros Hfails. unfold JenkinsAnalyzer.analyze_failure.
  destruct (FS.read fs failure_log_path) as [failure_content|e]; [|done]. simpl.
  destruct (JenkinsAnalyzer.load_success_log fs success_log_path)
    as [success_content|e]; [|done]. simpl.
  destruct (MongoDBAnalyzer.analyze_mongodb_issue failure_content); [|done].
  by rewrite Hfails.
Qed.

Lemma failing_llm_is_no_llm_witness :
  JenkinsAnalyzer.analyze_failure (with_llm (Some (λ _, None)) Sample.offline)
    Sample.logs "logs/failure/build_13_20240230_101500.txt" None
  = JenkinsAnalyzer.analyze_failure (with_llm None Sample.offline)
      Sample.logs "logs/failure/build_13_20240230_101500.txt" None.
Proof. apply (failing_llm_is_no_llm Sample.offline). reflexivity. Defined.

(** The generative tier.  For a log that the detector does not recognise,
    a model that answers every prompt carrying at most 2000 characters of
    the failure log and at most 1000 of the comparison log is enough: its
    answer is returned word for word, with kind
    [azure_openai_with_context] and the context flag set. *)
Theorem generative_tier_returns_the_answer sv fs failure_log_path success_log_path
    text invoke answer :
  llm sv = Some invoke →
  (∀ p, String.length (p_failure_log p) ≤ 2000 →
        String.length (p_success_log p) ≤ 1000 → invoke p = Some answer) →
  fs !! failure_log_path = Some (FS.TextFile text) →
  MongoDBAnalyzer.analyze_mongodb_issue text = MongoDBAnalyzer.NotMongo →
  comparison_log_ok fs success_log_path →
  ∃ d,
    JenkinsAnalyzer.analyze_failure sv fs failure_log_path success_log_path = Return d ∧
    JenkinsAnalyzer.analysis d = answer ∧
    JenkinsAnalyzer.analysis_type d = JenkinsAnalyzer.azure_openai_with_context ∧
    JenkinsAnalyzer.repository_context_used d = Some true ∧
    JenkinsAnalyzer.failure_repos d
      = JenkinsAnalyzer._extract_repos_from_log fs failure_log_path.
Proof.
  intros Hllm Hanswers Hlog%read_text Hm Hok.
  destruct (load_success_log_returns _ _ Hok) as [success_content Hsucc].
  rewrite (analyze_failure_unfold _ _ _ _ _ _ Hlog Hsucc). simpl.
  rewrite Hm, Hllm, Hanswers.
  - eexists. split; [reflexivity|]. done.
  - apply length_take.
  - unfold JenkinsAnalyzer.analysis_prompt. cbn [p_success_log].
    destruct (Py.truthy success_content); [apply length_take|].
    vm_compute. lia.
Qed.

Lemma generative_tier_returns_the_answer_witness :
  ∃ d,
    JenkinsAnalyzer.analyze_failure Sample.online Sample.logs
      "logs/failure/build_13_20240230_101500.txt" None = Return d ∧
    JenkinsAnalyzer.analysis d = "The build failed while resolving a host name." ∧
    JenkinsAnalyzer.analysis_type d = JenkinsAnalyzer.azure_openai_with_context ∧
    JenkinsAnalyzer.repository_context_used d = Some true ∧
    JenkinsAnalyzer.failure_repos d
      = JenkinsAnalyzer._extract_repos_from_log Sample.logs
          "logs/failure/build_13_20240230_101500.txt".
Proof.
  apply (generative_tier_returns_the_answer Sample.online Sample.logs
           "logs/failure/build_13_20240230_101500.txt" None Sample.plain_log
           (λ _, Some "The build failed while resolving a host name.")).
  - reflexivity.
  - reflexivity.
  - reflexivity.
  - vm_compute. reflexivity.
  - intros p Hp. discriminate Hp.
Defined.

(** Whatever tier answers, the kind is [mongodb_specialized] exactly when
    the detector finds one of its signatures in the failure log. *)
Theorem specialized_kind_iff_detector_fires sv fs failure_log_path success_log_path
    text d :
  fs !! failure_log_path = Some (FS.TextFile text) →
  JenkinsAnalyzer.analyze_failure sv fs failure_log_path success_log_path = Return d →
  JenkinsAnalyzer.analysis_type d = JenkinsAnalyzer.mongodb_specialized
  ↔ MongoDBAnalyzer.find_errors text ≠ [].
Proof.
  intros Hlog%read_text Hd.
  destruct (JenkinsAnalyzer.load_success_log fs success_log_path)
    as [success_content|e] eqn:Hsucc.
  2: { unfold JenkinsAnalyzer.analyze_failure in Hd. rewrite Hlog in Hd.
       simpl in Hd. by rewrite Hsucc in Hd. }
  rewrite (analyze_failure_unfold _ _ _ _ _ _ Hlog Hsucc) in Hd. simpl in Hd.
  destruct (MongoDBAnalyzer.analyze_mongodb_issue text) as [|errors specialized] eqn:Hm.
  - assert (MongoDBAnalyzer.find_errors text = []) as ->.
    { unfold MongoDBAnalyzer.analyze_mongodb_issue in Hm.
      by destruct (MongoDBAnalyzer.find_errors text). }
    pose proof (local_analysis_kind text success_content
                  (JenkinsAnalyzer._extract_repos_from_log fs failure_log_path)
                  (match JenkinsAnalyzer.given success_log_path with
                   | Some p => JenkinsAnalyzer._extract_repos_from_log fs p
                   | None => []
                   end) Hm) as [Hkind _].
    destruct (llm sv) as [invoke|].
    + destruct (invoke _); injection Hd as <-; simpl; [done|].
      rewrite Hkind. done.
    + injection Hd as <-. rewrite Hkind. done.
  - injection Hd as <-. simpl. split; [intros _|done].
    unfold MongoDBAnalyzer.analyze_mongodb_issue in Hm.
    by destruct (MongoDBAnalyzer.find_errors text).
Qed.

Lemma specialized_kind_iff_detector_fires_witness :
  JenkinsAnalyzer.mongodb_specialized = JenkinsAnalyzer.mongodb_specialized
  ↔ MongoDBAnalyzer.find_errors Sample.dns_log ≠ [].
Proof.
  apply (specialized_kind_iff_detector_fires Sample.offline Sample.logs
           "logs/failure/build_12_20240131_101500.txt" None Sample.dns_log
           (JenkinsAnalyzer.Diagnosis
              (JenkinsAnalyzer.enhanced_analysis
                 (MongoDBAnalyzer._analyze_specific_error
                    (MongoDBAnalyzer.find_errors Sample.dns_log) Sample.dns_log)
                 "logs/failure/build_12_20240131_101500.txt"
                 (JenkinsAnalyzer._extract_build_info Sample.offline
                    "logs/failure/build_12_20240131_101500.txt" Sample.dns_log)
                 (JenkinsAnalyzer._extract_repos_from_log Sample.logs
                    "logs/failure/build_12_20240131_101500.txt"))
              (JenkinsAnalyzer._extract_repos_from_log Sample.logs
                 "logs/failure/build_12_20240131_101500.txt")
              [] (Some "logs/failure/build_12_20240131_101500.txt") (Some None)
              JenkinsAnalyzer.mongodb_specialized
              (Some (JenkinsAnalyzer._extract_build_info Sample.offline
                       "logs/failure/build_12_20240131_101500.txt" Sample.dns_log))
              None)).
  - reflexivity.
  - vm_compute. reflexivity.
Defined.

(** ** The detector and the local categories *)

Lemma signature_detected literal text :
  Re.lit_i literal ++ Re.any_star ∈ MongoDBAnalyzer.mongodb_error_patterns →
  occurs_ignoring_case literal text →
  MongoDBAnalyzer.find_errors text ≠ [].
Proof.
  intros Hin Hocc. unfold MongoDBAnalyzer.find_errors.
  apply (flat_map_nonempty _ _ _ Hin). by apply findall_signature.
Qed.

Lemma analyze_mongodb_issue_fires text :
  MongoDBAnalyzer.find_errors text ≠ [] →
  MongoDBAnalyzer.analyze_mongodb_issue text
  = MongoDBAnalyzer.MongoIssue (MongoDBAnalyzer.find_errors text)
      (MongoDBAnalyzer._analyze_specific_error (MongoDBAnalyzer.find_errors text) text).
Proof.
  intros Hne. unfold MongoDBAnalyzer.analyze_mongodb_issue.
  by destruct (MongoDBAnalyzer.find_errors text).
Qed.

Lemma mongo_category_detected text :
  JenkinsAnalyzer.categorize text = JenkinsAnalyzer.MongoConnection →
  MongoDBAnalyzer.find_errors text ≠ [].
Proof.
  unfold JenkinsAnalyzer.categorize.
  destruct (Py.contains "MongoServerSelectionError" text) eqn:H1.
  { intros _. apply (signature_detected "MongoServerSelectionError").
    - unfold MongoDBAnalyzer.mongodb_error_patterns. set_solver.
    - by apply occurs_ignoring_case_of_occurs, contains_occurs. }
  destruct (Py.contains "MongoNetworkError" text) eqn:H2.
  { intros _. apply (signature_detected "MongoNetworkError").
    - unfold MongoDBAnalyzer.mongodb_error_patterns. set_solver.
    - by apply occurs_ignoring_case_of_occurs, contains_occurs. }
  destruct (Py.contains "getaddrinfo ENOTFOUND" text) eqn:H3.
  { intros _. apply (signature_detected "getaddrinfo ENOTFOUND").
    - unfold MongoDBAnalyzer.mongodb_error_patterns. set_solver.
    - by apply occurs_ignoring_case_of_occurs, contains_occurs. }
  simpl. repeat case_match; done.
Qed.

(** [_local_analysis] never writes its own MongoDB paragraph: as soon as
    the text falls in the MongoDB category the specialized detector fires
    as well, and the result is the specialized analysis, of kind
    [mongodb_specialized]; in every other category the kind is [local]. *)
Theorem local_analysis_defers_to_detector failure_content success_content
    failure_repos success_repos :
  let d := JenkinsAnalyzer._local_analysis failure_content success_content
             failure_repos success_repos in
  (JenkinsAnalyzer.categorize failure_content = JenkinsAnalyzer.MongoConnection →
   JenkinsAnalyzer.analysis_type d = JenkinsAnalyzer.mongodb_specialized ∧
   JenkinsAnalyzer.analysis d
   = MongoDBAnalyzer._analyze_specific_error
       (MongoDBAnalyzer.find_errors failure_content) failure_content) ∧
  (JenkinsAnalyzer.categorize failure_content ≠ JenkinsAnalyzer.MongoConnection →
   JenkinsAnalyzer.analysis_type d = JenkinsAnalyzer.local).
Proof.
  simpl. unfold JenkinsAnalyzer._local_analysis. split.
  - intros Hcat. rewrite Hcat.
    by rewrite (analyze_mongodb_issue_fires _ (mongo_category_detected _ Hcat)).
  - intros Hcat. by destruct (JenkinsAnalyzer.categorize failure_content).
Qed.

Lemma local_analysis_defers_to_detector_witness :
  JenkinsAnalyzer.analysis_type
    (JenkinsAnalyzer._local_analysis Sample.dns_log "" [] [])
  = JenkinsAnalyzer.mongodb_specialized ∧
  JenkinsAnalyzer.analysis_type
    (JenkinsAnalyzer._local_analysis Sample.plain_log "" [] [])
  = JenkinsAnalyzer.local.
Proof.
  split.
  - destruct (local_analysis_defers_to_detector Sample.dns_log "" [] [])
      as [Hmongo _].
    apply Hmongo. vm_compute. reflexivity.
  - destruct (local_analysis_defers_to_detector Sample.plain_log "" [] [])
      as [_ Hother].
    apply Hother. vm_compute. discriminate.
Defined.

(** ** What [findall] reports for a signature *)

Lemma app_eq_app_string s1 s2 t1 t2 :
  s1 +:+ s2 = t1 +:+ t2 →
  (∃ u, t1 = s1 +:+ u ∧ s2 = u +:+ t2) ∨ (∃ u, s1 = t1 +:+ u ∧ t2 = u +:+ s2).
Proof.
  revert t1. induction s1 as [|c s1 IH]; intros t1 Heq.
  - left. by exists t1.
  - destruct t1 as [|c' t1]; [right; by exists (String c s1)|].
    rewrite !app_cons in Heq. injection Heq as -> Heq.
    destruct (IH _ Heq) as [(u & -> & ->)|(u & -> & ->)]; [left|right]; by exists u.
Qed.

Lemma match_lit_i_consumes literal tail s f :
  Re.match_here (Re.lit_i literal ++ tail) s = Some f →
  ∃ m s', s = m +:+ s' ∧ Py.lower m = Py.lower literal ∧
          Re.match_here tail s' = Some f.
Proof.
  revert s. induction literal as [|a literal IH]; intros s; simpl.
  - intros Hm. by exists "", s.
  - destruct s as [|c s]; [done|]. unfold Re.ignoring_case at 1.
    destruct (Ascii.eqb _ _) eqn:Hc; [|done]. apply Ascii.eqb_eq in Hc.
    intros (m & s' & -> & Hm & Htail)%IH.
    exists (String c m), s'. simpl. by rewrite Hc, Hm.
Qed.

Lemma star_dot_stops s f :
  Re.match_here Re.any_star s = Some f →
  ∃ m, s = m +:+ Re.rest f ∧
       (Re.rest f = "" ∨ ∃ r, Re.rest f = String "010" r) ∧
       Re.g_open f = None ∧ Re.g_close f = None.
Proof.
  unfold Re.any_star. rewrite match_here_atom.
  set (k := Re.match_here []).
  assert (∀ s', k s' = Some (Re.Found s' None None)) as Hk by done.
  clearbody k. revert f.
  induction s as [|c s IH]; intros f; cbn [Re.star].
  - rewrite Hk. intros [= <-]. exists "". simpl. eauto.
  - destruct (Re.dot c) eqn:Hc.
    + destruct (star_continues Re.dot k s) as [f' Hf'];
        [intros s'; rewrite Hk; by eexists|].
      rewrite Hf'. intros [= ->].
      destruct (IH _ Hf') as (m & Hs & Hrest & Hopen & Hclose).
      exists (String c m). by rewrite app_cons, <- Hs.
    + rewrite Hk. intros [= <-]. exists "". simpl. split_and!; try done.
      right. exists s. unfold Re.dot in Hc.
      apply negb_false_iff, Ascii.eqb_eq in Hc. by subst.
Qed.

Lemma findall_skip p m t :
  Re.findall_from p (String.length m) (m +:+ t) = Re.findall_from p 0 t.
Proof. induction m as [|c m IH]; [done|]. by rewrite app_cons. Qed.

Lemma findall_after_match p m f :
  m ≠ "" → Re.match_here p (m +:+ Re.rest f) = Some f →
  Re.findall p (m +:+ Re.rest f)
  = Re.result_text (m +:+ Re.rest f) f :: Re.findall p (Re.rest f).
Proof.
  intros Hm Hmatch. unfold Re.findall. destruct m as [|c m]; [done|].
  rewrite app_cons in *. cbn [Re.findall_from]. rewrite Hmatch. f_equal.
  replace (String.length (String c (m +:+ Re.rest f)) - String.length (Re.rest f) - 1)
    with (String.length m); [apply findall_skip|].
  cbn [String.length]. rewrite length_app_string. lia.
Qed.

Lemma findall_after_miss p c s :
  Re.match_here p (String c s) = None →
  Re.findall p (String c s) = Re.findall p s.
Proof. intros Hmiss. unfold Re.findall. cbn [Re.findall_from]. by rewrite Hmiss. Qed.

Lemma lower_nonempty m literal :
  Py.lower m = Py.lower literal → literal ≠ "" → m ≠ "".
Proof. destruct m, literal; done. Qed.

(** Every occurrence of a one-line signature lies inside one of the
    matches that [findall] reports for it. *)
Lemma signature_covered literal text :
  all_chars Re.dot literal = true → literal ≠ "" →
  occurs literal text →
  ∃ e, e ∈ Re.findall (Re.lit_i literal ++ Re.any_star) text ∧ occurs literal e.
Proof.
  intros Hline Hne.
  remember (String.length text) as n eqn:Hn. revert text Hn.
  induction n as [n IH] using lt_wf_ind. intros text -> (before & after & ->).
  destruct (Re.match_here (Re.lit_i literal ++ Re.any_star)
              (before +:+ literal +:+ after)) as [f|] eqn:Hmatch.
  - pose proof Hmatch as Hm.
    apply match_lit_i_consumes in Hm as (m1 & s1 & Hs & Hcase & Hstar).
    apply star_dot_stops in Hstar as (m2 & -> & Hrest & Hopen & Hclose).
    rewrite <- (app_assoc_string m1 m2 (Re.rest f)) in Hs.
    assert (m1 +:+ m2 ≠ "") as Hm12.
    { apply app_nonempty_l. by eapply lower_nonempty. }
    rewrite Hs in Hmatch |- *.
    rewrite (findall_after_match _ _ _ Hm12 Hmatch).
    assert (Re.result_text ((m1 +:+ m2) +:+ Re.rest f) f = m1 +:+ m2) as ->.
    { unfold Re.result_text. rewrite Hopen. apply between_app. }
    destruct (app_eq_app_string _ _ _ _ Hs) as [(u & Hm & Hu)|(u & Hb & Hr)].
    + exists (m1 +:+ m2). split; [left|].
      destruct (app_eq_app_string _ _ _ _ Hu) as [(v & Hv & _)|(v & Hl & Hv)].
      * rewrite Hm, Hv. by exists before, v.
      * destruct v as [|c v].
        { rewrite app_empty_r in Hl. rewrite Hm, <- Hl. exists before, "".
          by rewrite app_empty_r. }
        rewrite Hl, all_chars_app in Hline.
        apply andb_true_iff in Hline as [_ Hv'].
        simpl in Hv'. apply andb_true_iff in Hv' as [Hc _].
        destruct Hrest as [Hempty|[r Hnl]].
        -- rewrite Hempty in Hv. destruct u; done.
        -- rewrite Hnl, app_cons in Hv. injection Hv as <- _. done.
    + destruct (IH (String.length (Re.rest f))) with (text := Re.rest f)
        as (e & Hin & Hocc); [|done| |].
      * rewrite Hs, length_app_string. destruct (m1 +:+ m2); [done|simpl; lia].
      * by exists u, after.
      * exists e. split; [by right|done].
  - destruct before as [|c before].
    { rewrite app_empty_l in Hmatch.
      rewrite (match_lit_i literal Re.any_star literal after eq_refl) in Hmatch.
      destruct (any_star_matches after) as [f Hf]. congruence. }
    rewrite app_cons in *. rewrite (findall_after_miss _ _ _ Hmatch).
    apply (IH (String.length (before +:+ literal +:+ after))); [simpl; lia|done|].
    by exists before, after.
Qed.

Lemma elem_of_flat_map {A B} (f : A → list B) (l : list A) x y :
  x ∈ l → y ∈ f x → y ∈ flat_map f l.
Proof.
  intros Hx Hy. apply list_elem_of_In, in_flat_map.
  exists x. split; by apply list_elem_of_In.
Qed.

Lemma any_contains_elem needle errors e :
  e ∈ errors → occurs needle e → MongoDBAnalyzer.any_contains needle errors = true.
Proof.
  intros Hin Hocc. unfold MongoDBAnalyzer.any_contains. apply existsb_exists.
  exists e. split; [by apply list_elem_of_In|by apply contains_occurs].
Qed.

(** When the failure log holds [getaddrinfo ENOTFOUND] as written, the
    diagnosis of [analyze_failure] names the DNS resolution failure as the
    root cause. *)
Theorem dns_signature_gets_dns_root_cause sv fs failure_log_path success_log_path text :
  fs !! failure_log_path = Some (FS.TextFile text) →
  occurs "getaddrinfo ENOTFOUND" text →
  comparison_log_ok fs success_log_path →
  ∃ d,
    JenkinsAnalyzer.analyze_failure sv fs failure_log_path success_log_path = Return d ∧
    Py.contains "**Root Cause**: DNS Resolution Failure" (JenkinsAnalyzer.analysis d)
      = true.
Proof.
  intros Hlog%read_text Hocc Hok.
  destruct (load_success_log_returns _ _ Hok) as [success_content Hsucc].
  destruct (signature_covered "getaddrinfo ENOTFOUND" text) as (e & Hin & Hcov);
    [done|done|done|].
  assert (e ∈ MongoDBAnalyzer.find_errors text) as He.
  { unfold MongoDBAnalyzer.find_errors.
    eapply elem_of_flat_map; [|exact Hin].
    unfold MongoDBAnalyzer.mongodb_error_patterns. set_solver. }
  assert (MongoDBAnalyzer.find_errors text ≠ []) as Hne.
  { intros Hnil. rewrite Hnil in He. by apply elem_of_nil in He. }
  rewrite (analyze_failure_unfold _ _ _ _ _ _ Hlog Hsucc). simpl.
  rewrite (analyze_mongodb_issue_fires _ Hne).
  eexists. split; [reflexivity|]. simpl.
  apply contains_occurs. unfold JenkinsAnalyzer.enhanced_analysis.
  apply occurs_app_l, contains_occurs.
  unfold MongoDBAnalyzer._analyze_specific_error.
  rewrite (any_contains_elem _ _ _ He Hcov). by vm_compute.
Qed.

Lemma dns_signature_gets_dns_root_cause_witness :
  ∃ d,
    JenkinsAnalyzer.analyze_failure Sample.offline Sample.logs
      "logs/failure/build_12_20240131_101500.txt" None = Return d ∧
    Py.contains "**Root Cause**: DNS Resolution Failure" (JenkinsAnalyzer.analysis d)
      = true.
Proof.
  apply (dns_signature_gets_dns_root_cause Sample.offline Sample.logs
           "logs/failure/build_12_20240131_101500.txt" None Sample.dns_log).
  - reflexivity.
  - by exists "Error: ", " mongodb-central-stg-headless.mongodb.svc.cluster.local".
  - intros p Hp. discriminate Hp.
Defined.

(** ** What the extractors return *)

(** For a log that reads, [Fetch.extract_repos_from_log] returns exactly
    the candidates of the log that have the validated shape, together with
    the supplemental repositories: nothing valid is lost and nothing else
    is added. *)
Theorem fetch_extractor_returns_exactly fs log_path content x :
  fs !! log_path = Some (FS.TextFile content) →
  x ∈ Fetch.extract_repos_from_log fs log_path
  ↔ (x ∈ Fetch.repo_candidates content ∧ repository_shape x)
    ∨ x ∈ Fetch.additional_repos.
Proof.
  intros Hlog%read_text. rewrite (fetch_extract_returns _ _ _ Hlog).
  rewrite supplement_elem, list_elem_of_In, filter_In, <- list_elem_of_In.
  by rewrite list_of_set_elem, valid_repo_shape.
Qed.

Lemma fetch_extractor_returns_exactly_witness :
  "https://github.com/a/b.git"
    ∈ Fetch.extract_repos_from_log Scenario.disk "logs/success/build_1.txt"
  ↔ ("https://github.com/a/b.git"
       ∈ Fetch.repo_candidates "https://github.com/a/b.git,https://github.com/c/d.git"
     ∧ repository_shape "https://github.com/a/b.git")
    ∨ "https://github.com/a/b.git" ∈ Fetch.additional_repos.
Proof.
  apply (fetch_extractor_returns_exactly Scenario.disk "logs/success/build_1.txt").
  reflexivity.
Defined.

Lemma truthy_nonempty s : Py.truthy s = true ↔ s ≠ "".
Proof. by destruct s. Qed.

Lemma analyzer_extract_members fs log_path content x :
  fs !! log_path = Some (FS.TextFile content) →
  x ∈ JenkinsAnalyzer._extract_repos_from_log fs log_path
  ↔ x ∈ JenkinsAnalyzer.repo_candidates content ∧ x ≠ "".
Proof.
  intros Hlog%read_text.
  unfold JenkinsAnalyzer._extract_repos_from_log, JenkinsAnalyzer._extract_repos_body.
  rewrite Hlog. simpl. rewrite stripped_nonempty_elem. split.
  - intros (repo & Hin & -> & Ht). apply (proj1 (list_of_set_elem _ _)) in Hin.
    rewrite (analyzer_candidates_stripped _ _ Hin) in *.
    split; [done|by apply truthy_nonempty].
  - intros [Hin Hne]. exists x. split_and!.
    + by apply list_of_set_elem.
    + by rewrite (analyzer_candidates_stripped _ _ Hin).
    + by apply truthy_nonempty.
Qed.

(** For a log that reads, [JenkinsAnalyzer._extract_repos_from_log]
    returns exactly the non-empty candidates of the log: the tokens of the
    first line and the matches of the three patterns. *)
Theorem analyzer_extractor_returns_exactly fs log_path content x :
  fs !! log_path = Some (FS.TextFile content) →
  x ∈ JenkinsAnalyzer._extract_repos_from_log fs log_path
  ↔ x ∈ JenkinsAnalyzer.repo_candidates content ∧ x ≠ "".
Proof. apply analyzer_extract_members. Qed.

Lemma analyzer_extractor_returns_exactly_witness :
  "http://foo" ∈ JenkinsAnalyzer._extract_repos_from_log Sample.logs
                   "logs/failure/frontend.txt"
  ↔ "http://foo" ∈ JenkinsAnalyzer.repo_candidates "http://foo" ∧ "http://foo" ≠ "".
Proof.
  apply (analyzer_extractor_returns_exactly Sample.logs "logs/failure/frontend.txt").
  reflexivity.
Defined.

(** The first line as a list of references: when it mentions [http] or
    [github.com], every token between commas that is not blank is
    returned, stripped, by the extractor of [analyze_failure]. *)
Theorem first_line_tokens_are_returned fs log_path content token :
  fs !! log_path = Some (FS.TextFile content) →
  let first_line := hd "" (Py.split "010" content) in
  Py.contains "http" first_line = true ∨ Py.contains "github.com" first_line = true →
  token ∈ Py.split "," first_line →
  Py.strip token ≠ "" →
  Py.strip token ∈ JenkinsAnalyzer._extract_repos_from_log fs log_path.
Proof.
  intros Hlog first_line Hmentions Htoken Hne.
  apply (analyzer_extract_members _ _ _ _ Hlog). split; [|done].
  unfold JenkinsAnalyzer.repo_candidates. fold first_line.
  apply elem_of_app. left.
  assert (Py.contains "github.com" first_line || Py.contains "http" first_line = true)
    as -> by (destruct Hmentions as [-> | ->]; [apply orb_true_r|done]).
  apply stripped_nonempty_elem. exists token.
  split_and!; [done|done|by apply truthy_nonempty].
Qed.

Lemma first_line_tokens_are_returned_witness :
  "https://example.com/x"
    ∈ JenkinsAnalyzer._extract_repos_from_log
        {[ "log" := FS.TextFile "https://github.com/a/b.git, https://example.com/x " ]}
        "log".
Proof.
  apply (first_line_tokens_are_returned
           {[ "log" := FS.TextFile "https://github.com/a/b.git, https://example.com/x " ]}
           "log" "https://github.com/a/b.git, https://example.com/x "
           " https://example.com/x ").
  - reflexivity.
  - left. reflexivity.
  - vm_compute. set_solver.
  - vm_compute. discriminate.
Defined.

(** ** Retrieval *)

Lemma repository_section_none sv fs failure_content repo_url :
  no_context_for sv fs failure_content repo_url →
  JenkinsAnalyzer.repository_section sv fs failure_content repo_url = None.
Proof.
  unfold no_context_for, JenkinsAnalyzer.repository_section. simpl.
  intros [Hnone|Hshort].
  - unfold FS.exists_. rewrite Hnone. case_bool_decide as Hex; [by destruct Hex|done].
  - destruct (FS.exists_ fs _); [|done].
    destruct (rag_run sv _ _) as [result|] eqn:Hrun; [|done].
    specialize (Hshort _ eq_refl).
    destruct (50 <? String.length result)%nat eqn:Hlen; [|done].
    apply Nat.ltb_lt in Hlen. lia.
Qed.

(** When, for every reference, the vector store of its repository is
    missing, does not answer, or answers with 50 characters or fewer, the
    context handed to the model is the fixed notice that no repository
    context is available. *)
Theorem no_context_gives_the_notice sv fs repos failure_content :
  (∀ repo_url, repo_url ∈ repos → no_context_for sv fs failure_content repo_url) →
  JenkinsAnalyzer._get_repository_context sv fs repos failure_content
  = "No repository context available - vector stores may not be created or accessible.".
Proof.
  intros Hnone. unfold JenkinsAnalyzer._get_repository_context.
  assert (omap (JenkinsAnalyzer.repository_section sv fs failure_content) repos = [])
    as ->; [|done].
  induction repos as [|repo_url repos IH]; [done|]. simpl.
  rewrite repository_section_none by (apply Hnone; by left).
  apply IH. intros r Hr. apply Hnone. by right.
Qed.

Lemma no_context_gives_the_notice_witness :
  JenkinsAnalyzer._get_repository_context Sample.online Sample.logs
    ["https://github.com/a/b.git"] Sample.plain_log
  = "No repository context available - vector stores may not be created or accessible.".
Proof.
  apply (no_context_gives_the_notice Sample.online Sample.logs).
  intros repo_url Hin. left. apply list_elem_of_singleton in Hin as ->. reflexivity.
Defined.

(** ** Indexing *)

(** Building twice in a row from the same directory leaves the store as
    one build does. *)
Theorem rebuilding_changes_nothing be directory_path vectorstore_path extra store :
  VectorIndexer.chunk_and_store_to_vector_db be directory_path vectorstore_path extra
    (VectorIndexer.chunk_and_store_to_vector_db be directory_path vectorstore_path
       extra store)
  = VectorIndexer.chunk_and_store_to_vector_db be directory_path vectorstore_path
      extra store.
Proof.
  unfold VectorIndexer.chunk_and_store_to_vector_db.
  destruct (VectorIndexer.collect_documents be directory_path extra) as [|d ds];
    [done|].
  destruct (embed_and_save be (d :: ds) vectorstore_path); [|done].
  apply insert_insert_eq.
Qed.

Lemma chunks_of_file_metadata be m file d key value :
  m ≠ ∅ → d ∈ VectorIndexer.chunks_of_file be (Some m) file →
  m !! key = Some value → metadata d !! key = Some value.
Proof.
  intros Hm Hd Hkey. unfold VectorIndexer.chunks_of_file in Hd.
  destruct (load be file) as [docs|]; [|by apply elem_of_nil in Hd].
  destruct (split_documents be docs) as [split_docs|]; [|by apply elem_of_nil in Hd].
  case_bool_decide; [done|].
  apply list_elem_of_fmap in Hd as (d0 & -> & _). simpl.
  by apply lookup_union_Some_l.
Qed.

(** The metadata given by the caller is set on every chunk that is
    collected, and wins over what the loader had put under the same key. *)
Theorem caller_metadata_is_on_every_chunk be directory_path m d key value :
  m ≠ ∅ →
  d ∈ VectorIndexer.collect_documents be directory_path (Some m) →
  m !! key = Some value →
  metadata d !! key = Some value.
Proof.
  intros Hm Hd Hkey. unfold VectorIndexer.collect_documents in Hd.
  apply list_elem_of_In, in_flat_map in Hd as (ext & _ & Hd).
  apply in_flat_map in Hd as (file & _ & Hd).
  apply list_elem_of_In in Hd. by eapply chunks_of_file_metadata.
Qed.

Lemma caller_metadata_is_on_every_chunk_witness :
  metadata (Document "print('new')" {[ "repo" := "app" ]}) !! "repo" = Some "app".
Proof.
  apply (caller_metadata_is_on_every_chunk Sample.one_file "cloned_repos/app"
           {[ "repo" := "app" ]}).
  - apply insert_non_empty.
  - vm_compute. left.
  - reflexivity.
Defined.

(** ** The status of a console text *)

Lemma contains_weaken a b s :
  Py.contains a b = true → Py.contains b s = true → Py.contains a s = true.
Proof.
  rewrite !contains_occurs. apply occurs_trans.
Qed.

(** [_determine_build_status] answers by one test: the build counts as a
    success exactly when its console text holds the word [success], in any
    letter case.  The other indicators, those of failure included, change
    nothing. *)
Theorem build_status_is_the_word_success console_content :
  JenkinsFetcher._determine_build_status console_content
  = Py.contains "success" (Py.lower console_content).
Proof.
  unfold JenkinsFetcher._determine_build_status, JenkinsFetcher.any_indicator,
    JenkinsFetcher.success_indicators.
  cbn [existsb].
  change (Py.lower "SUCCESS") with "success".
  destruct (Py.contains "success" (Py.lower console_content)) eqn:Hword.
  - by rewrite orb_true_r.
  - assert (∀ indicator, Py.contains "success" indicator = true →
              Py.contains indicator (Py.lower console_content) = false) as Hnone.
    { intros indicator Hin.
      destruct (Py.contains indicator (Py.lower console_content)) eqn:Hc; [|done].
      by rewrite (contains_weaken _ _ _ Hin Hc) in Hword. }
    rewrite !Hnone by (by vm_compute). cbn [orb]. by case_match.
Qed.

(** ** A log and its repositories *)

Lemma clone_repository_fetched_le git url dir w :
  length (fetched (Fetch.clone_repository git url dir w).2) ≤ S (length (fetched w)).
Proof.
  unfold Fetch.clone_repository.
  destruct (FS.exists_ (files w) dir); [simpl; lia|].
  pose proof (run_git_clone_fetched git url dir w) as Hfetched.
  destruct (Fetch.run_git_clone git url dir w) as [outcome w']. simpl in *.
  assert (length (fetched w') ≤ S (length (fetched w))) as Hle.
  { rewrite Hfetched, length_app. simpl. lia. }
  by destruct outcome.
Qed.

Lemma clone_step_fetched_le git state repo_url :
  length (fetched (FetchPipeline.clone_step git state repo_url).2)
  ≤ S (length (fetched state.2)).
Proof.
  destruct state as [cloned w]. unfold FetchPipeline.clone_step.
  pose proof (clone_repository_fetched_le git repo_url
                ("cloned_repos/" +:+ JenkinsAnalyzer.repo_name repo_url) w) as Hle.
  by destruct (Fetch.clone_repository git repo_url _ w) as [ok w1].
Qed.

Lemma clone_steps_fetched_le git repos state :
  length (fetched (foldl (FetchPipeline.clone_step git) state repos).2)
  ≤ length (fetched state.2) + length repos.
Proof.
  revert state. induction repos as [|repo_url repos IH]; intros state; cbn [foldl].
  - simpl. lia.
  - etrans; [apply IH|].
    pose proof (clone_step_fetched_le git state repo_url). simpl. lia.
Qed.

Lemma chunk_and_store_other be directory_path vectorstore_path extra store other :
  other ≠ vectorstore_path →
  VectorIndexer.chunk_and_store_to_vector_db be directory_path vectorstore_path
    extra store !! other = store !! other.
Proof.
  intros Hother. unfold VectorIndexer.chunk_and_store_to_vector_db.
  destruct (VectorIndexer.collect_documents be directory_path extra); [done|].
  destruct (embed_and_save be _ _); [|done]. by apply lookup_insert_ne.
Qed.

Lemma index_all_other be tag dirs store other :
  other ≠ tag →
  foldl (λ st repo_dir,
           VectorIndexer.chunk_and_store_to_vector_db be repo_dir tag None st)
        store dirs !! other = store !! other.
Proof.
  intros Hother. revert store.
  induction dirs as [|dir dirs IH]; intros store; simpl; [done|].
  rewrite IH. by apply chunk_and_store_other.
Qed.

(** [process_log_and_repos] stores every index it builds at the one path
    [tag]: the indices at all other paths are left as they were.  It runs
    [git clone] at most once for each reference of the log, and not at all
    when the log cannot be read. *)
Theorem processing_a_log_writes_one_index git be log_path tag w store :
  let after := FetchPipeline.process_log_and_repos git be log_path tag w store in
  (∀ other, other ≠ tag → after.2 !! other = store !! other) ∧
  length (fetched after.1)
  ≤ length (fetched w) + length (Fetch.extract_repos_from_log (files w) log_path) ∧
  (¬ readable (files w) log_path → after.1 = w).
Proof.
  simpl. unfold FetchPipeline.process_log_and_repos.
  pose proof (clone_steps_fetched_le git
                (Fetch.extract_repos_from_log (files w) log_path) ([], w)) as Hle.
  split_and!.
  - intros other Hother.
    destruct (foldl _ _ _) as [cloned w']. simpl.
    rewrite chunk_and_store_other by done. by apply index_all_other.
  - by destruct (foldl _ _ _) as [cloned w'].
  - intros Hunreadable.
    destruct (FS.read (files w) log_path) as [content|e] eqn:Hread.
    + destruct Hunreadable. exists content. by apply read_returns.
    + by rewrite (fetch_extract_raises _ _ _ Hread).
Qed.

Lemma processing_a_log_writes_one_index_witness :
  (FetchPipeline.process_log_and_repos Sample.working_git Sample.one_file
     "logs/failure/missing.txt" "failure" (World Sample.logs []) ∅).1
  = World Sample.logs [].
Proof.
  destruct (processing_a_log_writes_one_index Sample.working_git Sample.one_file
              "logs/failure/missing.txt" "failure" (World Sample.logs []) ∅)
    as (_ & _ & Hsame).
  apply Hsame. intros [content Hcontent]. discriminate Hcontent.
Defined.

(** ** The first-line extractor of the indexer *)

Lemma split_nonempty sep s : Py.split sep s ≠ [].
Proof.
  destruct s as [|c s]; simpl; [done|].
  destruct (Ascii.eqb c sep); [done|]. by destruct (Py.split sep s).
Qed.

Lemma join_cons sep piece pieces :
  pieces ≠ [] → Py.join sep (piece :: pieces) = piece +:+ sep +:+ Py.join sep pieces.
Proof. by destruct pieces. Qed.

Lemma join_split sep s : Py.join (String sep "") (Py.split sep s) = s.
Proof.
  induction s as [|c s IH]; [done|]. cbn [Py.split].
  pose proof (split_nonempty sep s) as Hne.
  destruct (Ascii.eqb c sep) eqn:Hc.
  - apply Ascii.eqb_eq in Hc as ->. by rewrite join_cons, IH.
  - destruct (Py.split sep s) as [|w ws]; [done|].
    destruct ws as [|w' ws].
    + simpl in *. by rewrite IH.
    + rewrite join_cons in * by done. rewrite app_cons. by rewrite IH.
Qed.

Lemma split_pieces sep s piece :
  piece ∈ Py.split sep s → all_chars (λ c, negb (Ascii.eqb c sep)) piece = true.
Proof.
  revert piece. induction s as [|c s IH]; intros piece; simpl.
  - by intros ->%list_elem_of_singleton.
  - destruct (Ascii.eqb c sep) eqn:Hc.
    + intros [->|Hin]%elem_of_cons; [done|by apply IH].
    + destruct (Py.split sep s) as [|w ws]; [by intros ->%list_elem_of_singleton; simpl; rewrite Hc|].
      intros [->|Hin]%elem_of_cons.
      * simpl. rewrite Hc. simpl. apply IH. by left.
      * apply IH. by right.
Qed.

(** When the first-line extractor of [vector_indexer] returns references,
    they are the pieces between the commas of the stripped first line, as
    they stand: no piece holds a comma, and joined by commas the pieces
    give the line back. *)
Theorem indexer_extractor_splits_the_first_line fs log_path content tokens :
  fs !! log_path = Some (FS.TextFile content) →
  IndexerBuild.extract_repos_from_log fs log_path = Return tokens →
  tokens ≠ [] →
  Py.join "," tokens = Py.strip (IndexerBuild.readline content) ∧
  Forall (λ token, all_chars (λ c, negb (Ascii.eqb c ",")) token = true) tokens.
Proof.
  intros Hlog%read_text. unfold IndexerBuild.extract_repos_from_log.
  rewrite Hlog. simpl.
  destruct (_ || _); intros [= <-] Hne; [|done]. split.
  - apply join_split.
  - apply Forall_forall. intros token Hin. by eapply split_pieces.
Qed.

Lemma indexer_extractor_splits_the_first_line_witness :
  Py.join "," ["https://github.com/a/b.git"; "https://github.com/c/d.git"]
  = Py.strip
      (IndexerBuild.readline "https://github.com/a/b.git,https://github.com/c/d.git") ∧
  Forall (λ token, all_chars (λ c, negb (Ascii.eqb c ",")) token = true)
    ["https://github.com/a/b.git"; "https://github.com/c/d.git"].
Proof.
  apply (indexer_extractor_splits_the_first_line Scenario.disk
           "logs/success/build_1.txt").
  - reflexivity.
  - reflexivity.
  - discriminate.
Defined.

(** ** The build of the global store *)






(** ** The batch route *)

(** The answer of [analyze_batch_logs] accounts for every path once, in
    order: there is one entry for each path, under its name, and the counts
    of completed and failed entries add up to the number of paths. *)
Theorem batch_accounts_for_every_log sv fs log_paths :
  let response := BatchRoute.respond sv fs log_paths in
  BatchRoute.completed response + BatchRoute.failed response
    = BatchRoute.total_logs response ∧
  BatchRoute.total_logs response = length log_paths ∧
  map BatchRoute.entry_path (BatchRoute.results response) = log_paths.
Proof.
  simpl. unfold Routes.analyze_batch_logs. split_and!; [|done|].
  - rewrite List.filter_length, length_map. done.
  - rewrite map_map. rewrite <- (map_id log_paths) at 2.
    apply map_ext. intros log_path. unfold Routes.analyze_batch_log.
    destruct (FS.exists_ fs log_path); [|done].
    by destruct (JenkinsAnalyzer.analyze_failure sv fs log_path None).
Qed.

(** ** The latest builds *)

Lemma or_else_none {A} (first : option A) : or_else first None = first.
Proof. by destruct first. Qed.

Lemma examine_unavailable server b latest_failure latest_success :
  ended_with server "SUCCESS" b = false →
  ended_with server "FAILURE" b = false →
  JenkinsFetcher.examine server b latest_failure latest_success
  = (latest_failure, latest_success,
     match details_of server (build_url b +:+ "api/json") with
     | DetailsStatus 200 _ =>
         bool_decide (is_Some latest_success) && bool_decide (is_Some latest_failure)
     | _ => false
     end).
Proof.
  unfold ended_with, JenkinsFetcher.examine.
  destruct (details_of server _) as [|code details_result]; [done|].
  destruct (decide (code = 200%Z)) as [->|Hcode].
  - rewrite !bool_decide_true by done. simpl. intros Hs Hf.
    by rewrite Hs, Hf.
  - intros _ _. destruct code as [|p|p]; try done.
    do 8 (destruct p as [p|p|]; try done).
Qed.

Lemma examine_success server b latest_failure latest_success :
  ended_with server "SUCCESS" b = true →
  JenkinsFetcher.examine server b latest_failure latest_success
  = (latest_failure,
     or_else latest_success (Some (JenkinsFetcher.choose b "SUCCESS")),
     bool_decide (is_Some latest_failure)) ∧
  ended_with server "FAILURE" b = false.
Proof.
  unfold ended_with, JenkinsFetcher.examine.
  destruct (details_of server _) as [|code details_result]; [done|].
  intros [Hcode Hresult]%andb_true_iff.
  apply bool_decide_eq_true in Hcode as ->.
  apply bool_decide_eq_true in Hresult as ->. simpl.
  destruct latest_success, latest_failure; simpl; split; try done.
Qed.

Lemma examine_failure server b latest_failure latest_success :
  ended_with server "FAILURE" b = true →
  JenkinsFetcher.examine server b latest_failure latest_success
  = (or_else latest_failure (Some (JenkinsFetcher.choose b "FAILURE")),
     latest_success,
     bool_decide (is_Some latest_success)) ∧
  ended_with server "SUCCESS" b = false.
Proof.
  unfold ended_with, JenkinsFetcher.examine.
  destruct (details_of server _) as [|code details_result]; [done|].
  intros [Hcode Hresult]%andb_true_iff.
  apply bool_decide_eq_true in Hcode as ->.
  apply bool_decide_eq_true in Hresult as ->. simpl.
  destruct latest_success, latest_failure; simpl; split; try done.
Qed.

(** The loop with its early exit is two independent searches. *)
Lemma scan_finds server builds latest_failure latest_success :
  latest_failure = None ∨ latest_success = None →
  JenkinsFetcher.scan server builds latest_failure latest_success
  = (or_else latest_failure (first_ended_with server "FAILURE" builds),
     or_else latest_success (first_ended_with server "SUCCESS" builds)).
Proof.
  revert latest_failure latest_success.
  induction builds as [|b builds IH]; intros latest_failure latest_success Hunset.
  { by destruct latest_failure, latest_success. }
  cbn [JenkinsFetcher.scan]. unfold first_ended_with. cbn [List.find].
  destruct (ended_with server "SUCCESS" b) eqn:Hs.
  - destruct (examine_success server b latest_failure latest_success Hs) as [-> ->].
    destruct latest_failure as [f|], latest_success as [s|]; simpl;
      try (by destruct Hunset); try done.
    all: rewrite IH by first [by left|by right]; done.
  - destruct (ended_with server "FAILURE" b) eqn:Hf.
    + destruct (examine_failure server b latest_failure latest_success Hf) as [-> _].
      destruct latest_failure as [f|], latest_success as [s|]; simpl;
        try (by destruct Hunset); try done.
      all: rewrite IH by first [by left|by right]; done.
    + rewrite (examine_unavailable _ _ _ _ Hs Hf).
      assert (bool_decide (is_Some latest_success)
              && bool_decide (is_Some latest_failure) = false) as Hstop.
      { destruct Hunset as [-> | ->]; [apply andb_false_r|done]. }
      assert (match details_of server (build_url b +:+ "api/json") with
              | DetailsStatus 200 _ =>
                  bool_decide (is_Some latest_success)
                  && bool_decide (is_Some latest_failure)
              | _ => false
              end = false) as ->.
      { rewrite Hstop. by repeat case_match. }
      by apply IH.
Qed.

(** [get_latest_builds] looks at the ten newest builds only.  It returns
    the newest of them that ended in failure and the newest that ended in
    success, each found on its own; when neither exists, the newest build
    of the job is returned as the failure, with result [UNKNOWN]. *)
Theorem latest_builds_are_the_newest_of_ten server jenkins_url latest_build later :
  job_builds server (JenkinsFetcher.without_trailing_slash jenkins_url +:+ "/api/json")
    = Some (latest_build :: later) →
  JenkinsFetcher.get_latest_builds true server jenkins_url
  = match first_ended_with server "FAILURE" (take 10 (latest_build :: later)),
          first_ended_with server "SUCCESS" (take 10 (latest_build :: later)) with
    | None, None => (Some (JenkinsFetcher.choose latest_build "UNKNOWN"), None)
    | failure, success => (failure, success)
    end.
Proof.
  intros Hjob. unfold JenkinsFetcher.get_latest_builds. rewrite Hjob.
  cbn [negb]. rewrite scan_finds by (by left). cbn [or_else].
  by repeat case_match.
Qed.

Lemma latest_builds_are_the_newest_of_ten_witness :
  JenkinsFetcher.get_latest_builds true Scenario.server "https://jenkins/job/app/"
  = (Some (ChosenBuild "https://jenkins/job/app/11/consoleText" 11 "FAILURE"),
     Some (ChosenBuild "https://jenkins/job/app/10/consoleText" 10 "SUCCESS")).
Proof.
  rewrite (latest_builds_are_the_newest_of_ten Scenario.server
             "https://jenkins/job/app/"
             (Build "https://jenkins/job/app/12/" 12)
             [ Build "https://jenkins/job/app/11/" 11;
               Build "https://jenkins/job/app/10/" 10 ]).
  - reflexivity.
  - reflexivity.
Defined.

(** ** The name of a repository *)

Lemma rstrip_chars_last chars s :
  Py.rstrip_chars chars s = "" ∨
  ∃ stem c, Py.rstrip_chars chars s = stem +:+ String c "" ∧
            Py.in_chars chars c = false.
Proof.
  induction s as [|c s IH]; simpl; [by left|].
  destruct (Py.rstrip_chars chars s) as [|c' r] eqn:Hr.
  - destruct (Py.in_chars chars c) eqn:Hc; [by left|].
    right. by exists "", c.
  - right. destruct IH as [|(stem & last & -> & Hlast)]; [done|].
    by exists (String c stem), last.
Qed.

Lemma join_last sep pieces :
  pieces ≠ [] → ∃ before, Py.join sep pieces = before +:+ List.last pieces "".
Proof.
  induction pieces as [|piece pieces IH]; [done|]. intros _.
  destruct pieces as [|piece' pieces]; [by exists ""|].
  destruct IH as [before Hjoin]; [done|].
  rewrite join_cons by done. rewrite Hjoin.
  exists (piece +:+ sep +:+ before).
  by rewrite !app_assoc_string.
Qed.

Lemma last_elem (pieces : list string) :
  pieces ≠ [] → List.last pieces "" ∈ pieces.
Proof.
  induction pieces as [|piece pieces IH]; [done|]. intros _.
  destruct pieces as [|piece' pieces]; [by left|]. right. by apply IH.
Qed.

Lemma last_segment_is_suffix s :
  (∃ before, s = before +:+ Py.last_segment s) ∧
  all_chars (λ c, negb (Ascii.eqb c "/")) (Py.last_segment s) = true.
Proof.
  unfold Py.last_segment. split.
  - destruct (join_last "/" (Py.split "/" s) (split_nonempty _ _)) as [before Hjoin].
    exists before. by rewrite <- Hjoin, join_split.
  - eapply split_pieces, last_elem, split_nonempty.
Qed.

Lemma no_separator_not_contained sep s :
  all_chars (λ c, negb (Ascii.eqb c sep)) s = true →
  Py.contains (String sep "") s = false.
Proof.
  induction s as [|c s IH]; simpl; [done|].
  intros [Hc Hs]%andb_true_iff. rewrite (IH Hs), orb_false_r, andb_true_r.
  apply negb_true_iff in Hc. by rewrite Ascii.eqb_sym.
Qed.

(** The name under which a reference is cloned and its vector store looked
    up, [repo_url.rstrip('.git').split('/')[-1]], holds no slash and never
    ends with one of the characters [.], [g], [i], [t]: the suffix is
    stripped character by character, so a name that ends with such letters
    loses them too. *)
Theorem repo_name_never_ends_in_git_letters repo_url :
  Py.contains "/" (JenkinsAnalyzer.repo_name repo_url) = false ∧
  (JenkinsAnalyzer.repo_name repo_url = "" ∨
   ∃ stem c, JenkinsAnalyzer.repo_name repo_url = stem +:+ String c "" ∧
             Py.in_chars ".git" c = false).
Proof.
  unfold JenkinsAnalyzer.repo_name.
  destruct (last_segment_is_suffix (Py.rstrip_chars ".git" repo_url))
    as [[before Hsuffix] Hslash].
  split; [by apply no_separator_not_contained|].
  destruct (rstrip_chars_last ".git" repo_url) as [Hempty|(stem & c & Hstem & Hc)].
  - left. rewrite Hempty in Hsuffix |- *. done.
  - rewrite Hstem in Hsuffix.
    destruct (app_eq_app_string _ _ _ _ Hsuffix) as [(u & -> & Hu)|(u & -> & Hu)].
    + destruct u as [|c' u].
      * rewrite app_empty_l in Hu. right. exists "", c. by rewrite Hstem, <- Hu.
      * rewrite app_cons in Hu. injection Hu as <- Hu.
        destruct u; [|discriminate]. left. rewrite Hstem.
        rewrite app_empty_l in Hu. by rewrite <- Hu.
    + right. exists u, c. by rewrite Hstem, Hu.
Qed.

Example repo_name_of_logging :
  JenkinsAnalyzer.repo_name "https://github.com/Meesho/logging.git" = "loggin".
Proof. reflexivity. Qed.

(** ** The errors of the detector are pieces of the log *)

Lemma findall_from_elem_suffix p skip s x :
  x ∈ Re.findall_from p skip s →
  ∃ before s' f, s = before +:+ s' ∧ Re.match_here p s' = Some f ∧
                 x = Re.result_text s' f.
Proof.
  revert skip. induction s as [|c s IH]; intros skip.
  - destruct skip; simpl; [|by intros ?%elem_of_nil].
    destruct (Re.match_here p "") as [f|] eqn:Hm; [|by intros ?%elem_of_nil].
    intros [->|?%elem_of_nil]%elem_of_cons; [|done]. by exists "", "", f.
  - assert (∀ k, x ∈ Re.findall_from p k s →
              ∃ before s' f, String c s = before +:+ s' ∧
                             Re.match_here p s' = Some f ∧
                             x = Re.result_text s' f) as Hlater.
    { intros k (before & s' & f & -> & Hm & ->)%IH.
      by exists (String c before), s', f. }
    destruct skip; simpl; [|apply Hlater].
    destruct (Re.match_here p (String c s)) as [f|] eqn:Hm; [|apply Hlater].
    intros [->|Hin]%elem_of_cons; [by exists "", (String c s), f|].
    by eapply Hlater.
Qed.

Lemma findall_plain_occurs p s x :
  atoms_within (λ _, true) p → x ∈ Re.findall p s → occurs x s.
Proof.
  intros Hp (before & s' & f & -> & Hm & ->)%findall_from_elem_suffix.
  rewrite <- (app_nil_r p) in Hm.
  apply (match_atoms_consumes (λ _, true)) in Hm as (m & rest & -> & _ & Hk);
    [|done].
  injection Hk as <-. unfold Re.result_text. simpl. rewrite between_app.
  by exists before, rest.
Qed.

Lemma lit_i_within literal : atoms_within (λ _, true) (Re.lit_i literal).
Proof. induction literal as [|a literal IH]; simpl; [done|by split]. Qed.

Lemma signature_pattern_plain literal :
  atoms_within (λ _, true) (Re.lit_i literal ++ Re.any_star).
Proof. apply atoms_within_app; [apply lit_i_within|by split]. Qed.

Lemma detector_errors_occur text e :
  e ∈ MongoDBAnalyzer.find_errors text → occurs e text.
Proof.
  unfold MongoDBAnalyzer.find_errors.
  intros (pattern & Hpattern & He)%list_elem_of_In%in_flat_map.
  apply list_elem_of_In in He. apply (findall_plain_occurs pattern); [|done].
  unfold MongoDBAnalyzer.mongodb_error_patterns in Hpattern.
  repeat (destruct Hpattern as [<-|Hpattern]; [apply signature_pattern_plain|]).
  destruct Hpattern.
Qed.

Lemma any_contains_absent needle text :
  ¬ occurs needle text →
  MongoDBAnalyzer.any_contains needle (MongoDBAnalyzer.find_errors text) = false.
Proof.
  intros Habsent. unfold MongoDBAnalyzer.any_contains.
  destruct (existsb _ _) eqn:Hex; [|done].
  apply existsb_exists in Hex as (e & He%list_elem_of_In & Hc%contains_occurs).
  destruct Habsent. eapply occurs_trans; [exact Hc|]. by apply detector_errors_occur.
Qed.

(** The root causes are tried in order.  A failure log that holds
    [Authentication failed] as written, and nowhere [getaddrinfo ENOTFOUND]
    as written, is diagnosed as a MongoDB authentication failure. *)
Theorem authentication_signature_gets_its_root_cause sv fs failure_log_path
    success_log_path text :
  fs !! failure_log_path = Some (FS.TextFile text) →
  occurs "Authentication failed" text →
  ¬ occurs "getaddrinfo ENOTFOUND" text →
  comparison_log_ok fs success_log_path →
  ∃ d,
    JenkinsAnalyzer.analyze_failure sv fs failure_log_path success_log_path = Return d ∧
    Py.contains "**Root Cause**: MongoDB Authentication Failure"
      (JenkinsAnalyzer.analysis d) = true.
Proof.
  intros Hlog%read_text Hauth Hdns Hok.
  destruct (load_success_log_returns _ _ Hok) as [success_content Hsucc].
  destruct (signature_covered "Authentication failed" text) as (e & Hin & Hcov);
    [done|done|done|].
  assert (e ∈ MongoDBAnalyzer.find_errors text) as He.
  { unfold MongoDBAnalyzer.find_errors.
    eapply elem_of_flat_map; [|exact Hin].
    unfold MongoDBAnalyzer.mongodb_error_patterns. set_solver. }
  assert (MongoDBAnalyzer.find_errors text ≠ []) as Hne.
  { intros Hnil. rewrite Hnil in He. by apply elem_of_nil in He. }
  rewrite (analyze_failure_unfold _ _ _ _ _ _ Hlog Hsucc). simpl.
  rewrite (analyze_mongodb_issue_fires _ Hne).
  eexists. split; [reflexivity|]. simpl.
  apply contains_occurs. unfold JenkinsAnalyzer.enhanced_analysis.
  apply occurs_app_l, contains_occurs.
  unfold MongoDBAnalyzer._analyze_specific_error.
  rewrite (any_contains_absent _ _ Hdns), (any_contains_elem _ _ _ He Hcov).
  by vm_compute.
Qed.

Lemma authentication_signature_gets_its_root_cause_witness :
  ∃ d,
    JenkinsAnalyzer.analyze_failure Sample.offline
      {[ "build.log" := FS.TextFile "MongoError: Authentication failed." ]}
      "build.log" None = Return d ∧
    Py.contains "**Root Cause**: MongoDB Authentication Failure"
      (JenkinsAnalyzer.analysis d) = true.
Proof.
  apply (authentication_signature_gets_its_root_cause Sample.offline
           {[ "build.log" := FS.TextFile "MongoError: Authentication failed." ]}
           "build.log" None "MongoError: Authentication failed.").
  - reflexivity.
  - by exists "MongoError: ", ".".
  - intros Hocc%contains_occurs. by vm_compute in Hocc.
  - intros p Hp. discriminate Hp.
Defined.
